(** * Bueno-Orovio minimal ventricular model: kinetics, stimulus and the 0D integrator

    A shallow embedding of [bueno_orovio/ops.py] and
    [implementation/bueno_orovio_0d.py].

    The Python source is written against the numeric protocol only
    (arithmetic, comparisons, true division, [round], [math.tanh]), so it
    is embedded once, over a type [F] of numbers carrying these operations
    (class [PyFloat]), and read at two instances:

    - [R], exact real arithmetic with the Standard Library's [tanh]: the
      arithmetic of the model without rounding, overflow or NaN.  Closed
      forms and laws of the equations are proved here, as statements of
      exact arithmetic.
    - [float], IEEE 754 binary64 with round-to-nearest-even, which is what
      a CPython [float] is.  Decimal literals of the source and of the
      specification are evaluated here exactly as the interpreter
      evaluates them, and what rounding, NaN and the infinities change is
      stated here.

    What the program does whatever the arithmetic (the order of the
    updates, what raises and when, what a call writes, the history) is
    proved once, for every instance.

    True division raises [ZeroDivisionError] on a zero divisor, [round]
    raises on a non-finite argument, and the conversion of an [int] that
    is too large for a float raises [OverflowError]; all three are results
    of type [outcome].  Methods of [BuenoOrovio0D] mutate [self]; they are
    state transformers that hand back the (possibly partly updated) object
    together with the outcome. *)

From Stdlib Require Import ZArith QArith List Bool Lia.
From Stdlib Require Import Reals Lra Qreals Zfloor.
From Stdlib Require Import Floats.
From Stdlib Require Import Permutation.
Import ListNotations.

(** ** Exceptions and results *)

Inductive exn : Type :=
| ZeroDivisionError
| OverflowError
| ValueError.

Inductive outcome (A : Type) : Type :=
| Returns (a : A)
| Raises (e : exn).

Arguments Returns {A} a.
Arguments Raises {A} e.

Class Monad (M : Type -> Type) : Type := {
  ret : forall {A}, A -> M A;
  bind : forall {A B}, M A -> (A -> M B) -> M B
}.

Declare Scope monad_scope.
Delimit Scope monad_scope with monad.
Notation "x <- c ;; k" := (bind c (fun x => k))
  (at level 61, c at next level, right associativity) : monad_scope.
Notation "c ;; k" := (bind c (fun _ => k))
  (at level 61, right associativity) : monad_scope.

#[global] Instance outcome_monad : Monad outcome := {
  ret := @Returns;
  bind := fun A B c k =>
    match c with
    | Returns a => k a
    | Raises e => Raises e
    end
}.

(** ** The numeric protocol the source is written against *)

Class PyFloat (F : Type) : Type := {
  lit : Q -> F;                (* a decimal literal, as [1.4506] *)
  of_int : Z -> F;             (* an [int] literal met by a float: the
                                  source has [0], [1] and [2] *)
  float_of_int : Z -> outcome F;   (* an [int] variable met by a float:
                                      [OverflowError] when too large *)
  add : F -> F -> F;
  sub : F -> F -> F;
  mul : F -> F -> F;
  neg : F -> F;
  quot : F -> F -> F;          (* [x / y] for a divisor that is not zero *)
  is_zero : F -> bool;         (* [y == 0] *)
  lt : F -> F -> bool;
  le : F -> F -> bool;
  py_round : F -> outcome Z    (* [int(round(x))] *)
}.

(** [x / y]: Python's true division. *)
Definition truediv {F} `{PyFloat F} (x y : F) : outcome F :=
  if is_zero y then Raises ZeroDivisionError else Returns (quot x y).

(** [x * i] for a float [x] and an [int] [i]: the [int] is converted to a
    float first, and one too large for a float raises [OverflowError]. *)
Definition mul_int {F} `{PyFloat F} (x : F) (i : Z) : outcome F :=
  bind (float_of_int i) (fun f => ret (mul x f)).

(** [f(x) for x in xs], consumed from left to right: the first exception
    ends the iteration. *)
Fixpoint map_outcome {A B : Type} (f : A -> outcome B) (xs : list A)
    : outcome (list B) :=
  match xs with
  | [] => Returns []
  | x :: rest =>
      bind (f x) (fun y =>
      bind (map_outcome f rest) (fun ys => ret (y :: ys)))
  end.

(** [sum(xs)]: the builtin folds [+] from the left, starting at [0].
    (CPython 3.12 and later add floats with a compensation term; the
    exact-arithmetic reading is the same.) *)
Definition sum {F} `{PyFloat F} (xs : list F) : F :=
  fold_left add xs (of_int 0).

(** [range(n)] *)
Definition range (n : Z) : list Z :=
  map Z.of_nat (seq 0 (Z.to_nat n)).

Declare Scope py_scope.
Delimit Scope py_scope with py.
Notation "x + y" := (add x y) : py_scope.
Notation "x - y" := (sub x y) : py_scope.
Notation "x * y" := (mul x y) : py_scope.
Notation "- x" := (neg x) : py_scope.
Notation "x / y" := (truediv x y) : py_scope.
Notation "x <? y" := (lt x y) : py_scope.
Notation "x <=? y" := (le x y) : py_scope.
Notation "x >=? y" := (le y x) : py_scope.

(** ** ops.py *)

Module Var.
(** A dict with the keys ["u"], ["v"], ["w"], ["s"]. *)
Record dict (A : Type) : Type := Build {
  u : A;
  v : A;
  w : A;
  s : A
}.
Arguments Build {A}.
Arguments u {A}.
Arguments v {A}.
Arguments w {A}.
Arguments s {A}.
End Var.

Module Par.
(** The dict of the 28 model parameters. *)
Record dict (F : Type) : Type := Build {
  u_o : F;
  u_u : F;
  theta_v : F;
  theta_w : F;
  theta_v_m : F;
  theta_o : F;
  tau_v1_m : F;
  tau_v2_m : F;
  tau_v_p : F;
  tau_w1_m : F;
  tau_w2_m : F;
  k_w_m : F;
  u_w_m : F;
  tau_w_p : F;
  tau_fi : F;
  tau_o1 : F;
  tau_o2 : F;
  tau_so1 : F;
  tau_so2 : F;
  k_so : F;
  u_so : F;
  tau_s1 : F;
  tau_s2 : F;
  k_s : F;
  u_s : F;
  tau_si : F;
  tau_w_inf : F;
  w_inf_ : F
}.
Arguments Build {F}.
Arguments u_o {F}. Arguments u_u {F}. Arguments theta_v {F}.
Arguments theta_w {F}. Arguments theta_v_m {F}. Arguments theta_o {F}.
Arguments tau_v1_m {F}. Arguments tau_v2_m {F}. Arguments tau_v_p {F}.
Arguments tau_w1_m {F}. Arguments tau_w2_m {F}. Arguments k_w_m {F}.
Arguments u_w_m {F}. Arguments tau_w_p {F}. Arguments tau_fi {F}.
Arguments tau_o1 {F}. Arguments tau_o2 {F}. Arguments tau_so1 {F}.
Arguments tau_so2 {F}. Arguments k_so {F}. Arguments u_so {F}.
Arguments tau_s1 {F}. Arguments tau_s2 {F}. Arguments k_s {F}.
Arguments u_s {F}. Arguments tau_si {F}. Arguments tau_w_inf {F}.
Arguments w_inf_ {F}.
End Par.

Module ops.
Section Ops.
Context {F : Type} `{PyFloat F}.
Local Open Scope py_scope.
Local Open Scope monad_scope.

Definition get_variables : Var.dict F :=
  Var.Build (lit 0.0) (lit 1.0) (lit 1.0) (lit 0.0).

Definition get_parameters : Par.dict F :=
  {| Par.u_o := lit 0.0;
     Par.u_u := lit 1.55;
     Par.theta_v := lit 0.3;
     Par.theta_w := lit 0.13;
     Par.theta_v_m := lit 0.006;
     Par.theta_o := lit 0.006;
     Par.tau_v1_m := lit 60.0;
     Par.tau_v2_m := lit 1150.0;
     Par.tau_v_p := lit 1.4506;
     Par.tau_w1_m := lit 60.0;
     Par.tau_w2_m := lit 15.0;
     Par.k_w_m := lit 65.0;
     Par.u_w_m := lit 0.03;
     Par.tau_w_p := lit 200.0;
     Par.tau_fi := lit 0.11;
     Par.tau_o1 := lit 400.0;
     Par.tau_o2 := lit 6.0;
     Par.tau_so1 := lit 30.0181;
     Par.tau_so2 := lit 0.9957;
     Par.k_so := lit 2.0458;
     Par.u_so := lit 0.65;
     Par.tau_s1 := lit 2.7342;
     Par.tau_s2 := lit 16.0;
     Par.k_s := lit 2.0994;
     Par.u_s := lit 0.9087;
     Par.tau_si := lit 1.8875;
     Par.tau_w_inf := lit 0.07;
     Par.w_inf_ := lit 0.94 |}.

Definition calc_rhs (J_fi J_so J_si : F) : F :=
  - J_fi - J_so - J_si.

Definition calc_v (v u theta_v v_inf tau_v_m tau_v_p : F) : outcome F :=
  if (u - theta_v) <? of_int 0 then (v_inf - v) / tau_v_m
  else (- v) / tau_v_p.

Definition calc_w (w u theta_w w_inf tau_w_m tau_w_p : F) : outcome F :=
  if (u - theta_w) <? of_int 0 then (w_inf - w) / tau_w_m
  else (- w) / tau_w_p.

Definition calc_s (s u tau_s k_s u_s : F) (tanh : F -> F) : outcome F :=
  h <- (of_int 1 + tanh (k_s * (u - u_s))) / of_int 2 ;;
  (h - s) / tau_s.

(** The local [H] of [calc_Jfi], [calc_Jso] and [calc_Jsi]:
    [1.0 if (u - theta) >= 0 else 0.0]. *)
Definition H_gate (u theta : F) : F :=
  if (u - theta) >=? of_int 0 then lit 1.0 else lit 0.0.

Definition calc_Jfi (u v theta_v u_u tau_fi : F) : outcome F :=
  let H := H_gate u theta_v in
  (- v * H * (u - theta_v) * (u_u - u)) / tau_fi.

Definition calc_Jso (u u_o theta_w tau_o tau_so : F) : outcome F :=
  let H := H_gate u theta_w in
  a <- ((u - u_o) * (of_int 1 - H)) / tau_o ;;
  b <- H / tau_so ;;
  ret (a + b).

Definition calc_Jsi (u w s theta_w tau_si : F) : outcome F :=
  let H := H_gate u theta_w in
  (- H * w * s) / tau_si.

Definition calc_tau_v_m (u theta_v_m tau_v1_m tau_v2_m : F) : F :=
  if (u - theta_v_m) <? of_int 0 then tau_v1_m else tau_v2_m.

Definition calc_tau_w_m (u tau_w1_m tau_w2_m k_w_m u_w_m : F)
    (tanh : F -> F) : outcome F :=
  h <- ((tau_w2_m - tau_w1_m) * (of_int 1 + tanh (k_w_m * (u - u_w_m))))
       / of_int 2 ;;
  ret (tau_w1_m + h).

Definition calc_tau_so (u tau_so1 tau_so2 k_so u_so : F)
    (tanh : F -> F) : outcome F :=
  h <- ((tau_so2 - tau_so1) * (of_int 1 + tanh (k_so * (u - u_so))))
       / of_int 2 ;;
  ret (tau_so1 + h).

Definition calc_tau_s (u tau_s1 tau_s2 theta_w : F) : F :=
  if (u - theta_w) <? of_int 0 then tau_s1 else tau_s2.

Definition calc_tau_o (u tau_o1 tau_o2 theta_o : F) : F :=
  if (u - theta_o) <? of_int 0 then tau_o1 else tau_o2.

Definition calc_v_inf (u theta_v_m : F) : F :=
  if u <? theta_v_m then lit 1.0 else lit 0.0.

Definition calc_w_inf (u theta_o tau_w_inf w_inf_ : F) : outcome F :=
  if (u - theta_o) <? of_int 0 then
    q <- u / tau_w_inf ;;
    ret (of_int 1 - q)
  else ret w_inf_.
End Ops.
End ops.

(** [math.tanh], the default of the [tanh] arguments above. *)
Class MathLib (F : Type) : Type := {
  math_tanh : F -> F
}.

(** ** implementation/bueno_orovio_0d.py *)

Module Stimulation.
Section Stimulation.
Context {F : Type} `{PyFloat F}.
Local Open Scope py_scope.

Record t : Type := Build {
  t_start : F;
  duration : F;
  amplitude : F
}.

(** [self.amplitude if self.t_start <= t < self.t_start + self.duration
    else 0.0] *)
Definition stim (self : t) (t : F) : F :=
  if (t_start self <=? t) && (t <? t_start self + duration self)
  then amplitude self
  else lit 0.0.
End Stimulation.
Arguments t F : clear implicits.
Arguments Build {F}.
End Stimulation.

Module BuenoOrovio0D.
Section Model.
Context {F : Type} `{PyFloat F} `{MathLib F}.
Local Open Scope py_scope.
Local Open Scope monad_scope.

Record t : Type := Build {
  dt : F;
  stimulations : list (Stimulation.t F);
  variables : Var.dict F;
  parameters : Par.dict F;
  history : Var.dict (list F)
}.

(** A method: it may mutate [self] and may raise. *)
Definition method (A : Type) : Type := t -> t * outcome A.

#[global] Instance method_monad : Monad method := {
  ret := fun A a self => (self, Returns a);
  bind := fun A B c k self =>
    match c self with
    | (self', Returns a) => k a self'
    | (self', Raises e) => (self', Raises e)
    end
}.

Definition get_self : method t :=
  fun self => (self, Returns self).

Definition eval {A} (c : outcome A) : method A :=
  fun self => (self, c).

(** [self.variables[k] = x], one definition per key. *)
Definition set_u (x : F) : method unit := fun self =>
  let vars := variables self in
  (Build (dt self) (stimulations self)
     (Var.Build x (Var.v vars) (Var.w vars) (Var.s vars))
     (parameters self) (history self), Returns tt).

Definition set_v (x : F) : method unit := fun self =>
  let vars := variables self in
  (Build (dt self) (stimulations self)
     (Var.Build (Var.u vars) x (Var.w vars) (Var.s vars))
     (parameters self) (history self), Returns tt).

Definition set_w (x : F) : method unit := fun self =>
  let vars := variables self in
  (Build (dt self) (stimulations self)
     (Var.Build (Var.u vars) (Var.v vars) x (Var.s vars))
     (parameters self) (history self), Returns tt).

Definition set_s (x : F) : method unit := fun self =>
  let vars := variables self in
  (Build (dt self) (stimulations self)
     (Var.Build (Var.u vars) (Var.v vars) (Var.w vars) x)
     (parameters self) (history self), Returns tt).

(** [for s in self.variables: self.history[s].append(self.variables[s])] *)
Definition append_history : method unit := fun self =>
  let vars := variables self in
  let h := history self in
  (Build (dt self) (stimulations self) vars (parameters self)
     (Var.Build (Var.u h ++ [Var.u vars]) (Var.v h ++ [Var.v vars])
                (Var.w h ++ [Var.w vars]) (Var.s h ++ [Var.s vars])),
   Returns tt).

(** [__init__] *)
Definition init (dt : F) (stimulations : list (Stimulation.t F)) : t :=
  Build dt stimulations ops.get_variables ops.get_parameters
        (Var.Build [] [] [] []).

Definition step (i : Z) : method unit :=
  self <- get_self ;;
  let vars := variables self in
  let p := parameters self in
  let v_inf := ops.calc_v_inf (Var.u vars) (Par.theta_v_m p) in
  let tau_v_m := ops.calc_tau_v_m (Var.u vars) (Par.theta_v_m p)
                   (Par.tau_v1_m p) (Par.tau_v2_m p) in
  dv <- eval (ops.calc_v (Var.v vars) (Var.u vars) (Par.theta_v p) v_inf
                tau_v_m (Par.tau_v_p p)) ;;
  set_v (Var.v vars + dt self * dv) ;;

  self <- get_self ;;
  let vars := variables self in
  w_inf <- eval (ops.calc_w_inf (Var.u vars) (Par.theta_o p)
                   (Par.tau_w_inf p) (Par.w_inf_ p)) ;;
  tau_w_m <- eval (ops.calc_tau_w_m (Var.u vars) (Par.tau_w1_m p)
                     (Par.tau_w2_m p) (Par.k_w_m p) (Par.u_w_m p)
                     math_tanh) ;;
  dw <- eval (ops.calc_w (Var.w vars) (Var.u vars) (Par.theta_w p) w_inf
                tau_w_m (Par.tau_w_p p)) ;;
  set_w (Var.w vars + dt self * dw) ;;

  self <- get_self ;;
  let vars := variables self in
  let tau_s := ops.calc_tau_s (Var.u vars) (Par.tau_s1 p) (Par.tau_s2 p)
                 (Par.theta_w p) in
  ds <- eval (ops.calc_s (Var.s vars) (Var.u vars) tau_s (Par.k_s p)
                (Par.u_s p) math_tanh) ;;
  set_s (Var.s vars + dt self * ds) ;;

  self <- get_self ;;
  let vars := variables self in
  J_fi <- eval (ops.calc_Jfi (Var.u vars) (Var.v vars) (Par.theta_v p)
                  (Par.u_u p) (Par.tau_fi p)) ;;
  let tau_o := ops.calc_tau_o (Var.u vars) (Par.tau_o1 p) (Par.tau_o2 p)
                 (Par.theta_o p) in
  tau_so <- eval (ops.calc_tau_so (Var.u vars) (Par.tau_so1 p)
                    (Par.tau_so2 p) (Par.k_so p) (Par.u_so p)
                    math_tanh) ;;
  J_so <- eval (ops.calc_Jso (Var.u vars) (Par.u_o p) (Par.theta_w p)
                  tau_o tau_so) ;;
  J_si <- eval (ops.calc_Jsi (Var.u vars) (Var.w vars) (Var.s vars)
                  (Par.theta_w p) (Par.tau_si p)) ;;
  let rhs := ops.calc_rhs J_fi J_so J_si in
  values <- eval (map_outcome
                    (fun stim =>
                       t <- mul_int (dt self) i ;;
                       ret (Stimulation.stim stim t))
                    (stimulations self)) ;;
  set_u (Var.u vars + dt self * (rhs + sum values)).

(** [for i in items: body(i)]; an exception leaves the loop. *)
Fixpoint for_each (items : list Z) (body : Z -> method unit)
    : method unit :=
  match items with
  | [] => ret tt
  | i :: rest => body i ;; for_each rest body
  end.

Definition run (t_max : F) : method unit :=
  self <- get_self ;;
  q <- eval (t_max / dt self) ;;
  n_steps <- eval (py_round q) ;;
  for_each (range n_steps) (fun i => step i ;; append_history).
End Model.
Arguments t F : clear implicits.
Arguments Build {F}.
Arguments method F A : clear implicits.
End BuenoOrovio0D.

(** ** Exact real arithmetic *)

(** [round] to the nearest integer, a tie going to the even neighbour. *)
Definition round_half_even (x : R) : Z :=
  let f := Zfloor x in
  let r := (x - IZR f)%R in
  if Rlt_dec r (1 / 2) then f
  else if Rlt_dec (1 / 2) r then (f + 1)%Z
  else if Z.even f then f else (f + 1)%Z.

#[global] Instance R_PyFloat : PyFloat R := {
  lit := Q2R;
  of_int := IZR;
  float_of_int := fun z => Returns (IZR z);
  add := Rplus;
  sub := Rminus;
  mul := Rmult;
  neg := Ropp;
  quot := Rdiv;
  is_zero := fun y => if Req_dec_T y 0 then true else false;
  lt := fun x y => if Rlt_dec x y then true else false;
  le := fun x y => if Rle_dec x y then true else false;
  py_round := fun x => Returns (round_half_even x)
}.

#[global] Instance R_MathLib : MathLib R := {
  math_tanh := Rtrigo_def.tanh
}.

(** ** IEEE 754 binary64 *)

Module Binary64.
(** [m * 2^e] for a positive [m], rounded to the nearest integer, a tie
    going to the even neighbour. *)
Definition round_dyadic (m : positive) (e : Z) : Z :=
  match e with
  | Zneg k =>
      let d := Z.pow_pos 2 k in
      let q := (Zpos m / d)%Z in
      let r := (Zpos m mod d)%Z in
      match (2 * r ?= d)%Z with
      | Lt => q
      | Gt => (q + 1)%Z
      | Eq => if Z.even q then q else (q + 1)%Z
      end
  | _ => (Zpos m * 2 ^ e)%Z
  end.

(** [int(round(x))]: [round] raises [ValueError] on a NaN and
    [OverflowError] on an infinity. *)
Definition round (x : float) : outcome Z :=
  match Prim2SF x with
  | S754_nan => Raises ValueError
  | S754_infinity _ => Raises OverflowError
  | S754_zero _ => Returns 0%Z
  | S754_finite sign m e =>
      Returns (if sign then - round_dyadic m e else round_dyadic m e)%Z
  end.

(** The binary64 nearest to an integer.  It is applied to the [int]
    literals of the source and to the digits of its decimal literals, far
    from the range where [float(z)] overflows; the step index goes through
    [float_of_int] below. *)
Definition of_Z (z : Z) : float :=
  SF2Prim (binary_normalize prec emax z 0 false).

(** [float(z)] for an [int]: the binary64 nearest to [z], and
    [OverflowError] when that is beyond the largest finite float. *)
Definition float_of_int (z : Z) : outcome float :=
  match binary_normalize prec emax z 0 false with
  | S754_infinity _ => Raises OverflowError
  | x => Returns (SF2Prim x)
  end.

(** A zero or a finite number: neither a NaN nor an infinity. *)
Definition finite (x : float) : bool :=
  match Prim2SF x with
  | S754_zero _ | S754_finite _ _ _ => true
  | _ => false
  end.

(** The binary64 nearest to a decimal literal: the correctly rounded
    quotient of its numerator and its power of ten, both exact. *)
Definition of_decimal (q : Q) : float :=
  PrimFloat.div (of_Z (Qnum q)) (of_Z (Zpos (Qden q))).

#[global] Instance float_PyFloat : PyFloat float := {
  lit := of_decimal;
  of_int := of_Z;
  float_of_int := float_of_int;
  add := PrimFloat.add;
  sub := PrimFloat.sub;
  mul := PrimFloat.mul;
  neg := PrimFloat.opp;
  quot := PrimFloat.div;
  is_zero := fun y => PrimFloat.eqb y 0%float;
  lt := PrimFloat.ltb;
  le := PrimFloat.leb;
  py_round := round
}.
End Binary64.

(** ** The integration scheme, as the specification words it

    The derivative of each state variable as a function of a whole state
    [x], the textbook forward-Euler update built from them (every
    derivative evaluated at the start-of-step state), and the update in
    which [u] is advanced last, from the already advanced [v], [w], [s];
    then what the statements about [step] and [run] observe: the state a
    step leaves, and the states left by the steps a run completes. *)

Module Integrator.
Section Integrator.
Context {F : Type} `{PyFloat F} `{MathLib F}.
Local Open Scope py_scope.
Local Open Scope monad_scope.

Definition dv_dt (p : Par.dict F) (x : Var.dict F) : outcome F :=
  let v_inf := ops.calc_v_inf (Var.u x) (Par.theta_v_m p) in
  let tau_v_m := ops.calc_tau_v_m (Var.u x) (Par.theta_v_m p)
                   (Par.tau_v1_m p) (Par.tau_v2_m p) in
  ops.calc_v (Var.v x) (Var.u x) (Par.theta_v p) v_inf tau_v_m
    (Par.tau_v_p p).

Definition dw_dt (p : Par.dict F) (x : Var.dict F) : outcome F :=
  w_inf <- ops.calc_w_inf (Var.u x) (Par.theta_o p) (Par.tau_w_inf p)
             (Par.w_inf_ p) ;;
  tau_w_m <- ops.calc_tau_w_m (Var.u x) (Par.tau_w1_m p) (Par.tau_w2_m p)
               (Par.k_w_m p) (Par.u_w_m p) math_tanh ;;
  ops.calc_w (Var.w x) (Var.u x) (Par.theta_w p) w_inf tau_w_m
    (Par.tau_w_p p).

Definition ds_dt (p : Par.dict F) (x : Var.dict F) : outcome F :=
  let tau_s := ops.calc_tau_s (Var.u x) (Par.tau_s1 p) (Par.tau_s2 p)
                 (Par.theta_w p) in
  ops.calc_s (Var.s x) (Var.u x) tau_s (Par.k_s p) (Par.u_s p) math_tanh.

(** The reaction term [-(J_fi + J_so + J_si)] at [x]. *)
Definition reaction (p : Par.dict F) (x : Var.dict F) : outcome F :=
  J_fi <- ops.calc_Jfi (Var.u x) (Var.v x) (Par.theta_v p) (Par.u_u p)
            (Par.tau_fi p) ;;
  let tau_o := ops.calc_tau_o (Var.u x) (Par.tau_o1 p) (Par.tau_o2 p)
                 (Par.theta_o p) in
  tau_so <- ops.calc_tau_so (Var.u x) (Par.tau_so1 p) (Par.tau_so2 p)
              (Par.k_so p) (Par.u_so p) math_tanh ;;
  J_so <- ops.calc_Jso (Var.u x) (Par.u_o p) (Par.theta_w p) tau_o
            tau_so ;;
  J_si <- ops.calc_Jsi (Var.u x) (Var.w x) (Var.s x) (Par.theta_w p)
            (Par.tau_si p) ;;
  ret (ops.calc_rhs J_fi J_so J_si).

(** The stimulus protocol at time [t]: the entries' contributions,
    summed. *)
Definition stimulus (stims : list (Stimulation.t F)) (t : F) : F :=
  sum (map (fun stim => Stimulation.stim stim t) stims).

(** The contributions that step [i] collects, entry by entry: each one
    at the time [dt*i], a product that is evaluated once per entry, so not
    at all for an empty protocol. *)
Definition stimulus_values (stims : list (Stimulation.t F)) (dt : F)
    (i : Z) : outcome (list F) :=
  map_outcome (fun stim =>
                 t <- mul_int dt i ;;
                 ret (Stimulation.stim stim t)) stims.

(** The derivative of [u] at step [i]: the reaction term, evaluated
    first, plus the sum of the contributions of the protocol. *)
Definition du_dt (p : Par.dict F) (stims : list (Stimulation.t F))
    (dt : F) (i : Z) (x : Var.dict F) : outcome F :=
  r <- reaction p x ;;
  values <- stimulus_values stims dt i ;;
  ret (r + sum values).

(** Textbook forward Euler: the next state is the current state plus
    [dt] times the derivative evaluated at the current state. *)
Definition forward_euler_step (p : Par.dict F) (dt : F)
    (stims : list (Stimulation.t F)) (i : Z) (x : Var.dict F)
    : outcome (Var.dict F) :=
  dv <- dv_dt p x ;;
  dw <- dw_dt p x ;;
  ds <- ds_dt p x ;;
  du <- du_dt p stims dt i x ;;
  ret (Var.Build (Var.u x + dt * du) (Var.v x + dt * dv)
                 (Var.w x + dt * dw) (Var.s x + dt * ds)).

(** [v], [w], [s] advance from the start-of-step state; [u] advances
    last, its derivative evaluated at the start-of-step [u] and the
    advanced [v], [w], [s]. *)
Definition sequential_step (p : Par.dict F) (dt : F)
    (stims : list (Stimulation.t F)) (i : Z) (x : Var.dict F)
    : outcome (Var.dict F) :=
  dv <- dv_dt p x ;;
  dw <- dw_dt p x ;;
  ds <- ds_dt p x ;;
  let x1 := Var.Build (Var.u x) (Var.v x + dt * dv) (Var.w x + dt * dw)
                      (Var.s x + dt * ds) in
  du <- du_dt p stims dt i x1 ;;
  ret (Var.Build (Var.u x + dt * du) (Var.v x1) (Var.w x1) (Var.s x1)).

(** Two results with the same [v], [w], [s], or the same exception. *)
Definition agree_on_gates (a b : outcome (Var.dict F)) : Prop :=
  match a, b with
  | Returns x, Returns y =>
      Var.v x = Var.v y /\ Var.w x = Var.w y /\ Var.s x = Var.s y
  | Raises e, Raises e' => e = e'
  | _, _ => False
  end.

(** The state a call [self.step(i)] leaves in [self.variables]. *)
Definition step_variables (i : Z) (self : BuenoOrovio0D.t F)
    : outcome (Var.dict F) :=
  match BuenoOrovio0D.step i self with
  | (self', Returns _) => Returns (BuenoOrovio0D.variables self')
  | (_, Raises e) => Raises e
  end.

(** The states left by calling [step] with the indices [items] in this
    order, up to the first call that raises. *)
Fixpoint post_states (items : list Z) (self : BuenoOrovio0D.t F)
    : list (Var.dict F) :=
  match items with
  | [] => []
  | i :: rest =>
      match BuenoOrovio0D.step i self with
      | (self', Returns _) =>
          BuenoOrovio0D.variables self' :: post_states rest self'
      | (_, Raises _) => []
      end
  end.

(** The body of the loop of [run]. *)
Definition run_body (i : Z) : BuenoOrovio0D.method F unit :=
  BuenoOrovio0D.step i ;; BuenoOrovio0D.append_history.

(** The step count [run(t_max)] computes, [int(round(t_max/dt))]. *)
Definition n_steps (t_max dt : F) : outcome Z :=
  q <- t_max / dt ;;
  py_round q.

(** The states left by the steps one call [self.run(t_max)] completes. *)
Definition run_states (t_max : F) (self : BuenoOrovio0D.t F)
    : list (Var.dict F) :=
  match n_steps t_max (BuenoOrovio0D.dt self) with
  | Returns n => post_states (range n) self
  | Raises _ => []
  end.

(** The object after the calls [run(t)] for [t] in [ts], in order (a
    caller that goes on after a call that raised). *)
Fixpoint run_all (ts : list F) (self : BuenoOrovio0D.t F)
    : BuenoOrovio0D.t F :=
  match ts with
  | [] => self
  | t_max :: rest => run_all rest (fst (BuenoOrovio0D.run t_max self))
  end.

(** The states left by all the steps these calls complete. *)
Fixpoint run_all_states (ts : list F) (self : BuenoOrovio0D.t F)
    : list (Var.dict F) :=
  match ts with
  | [] => []
  | t_max :: rest =>
      run_states t_max self
      ++ run_all_states rest (fst (BuenoOrovio0D.run t_max self))
  end.

(** A list of states read as a history dict, one column per key. *)
Definition columns (xs : list (Var.dict F)) : Var.dict (list F) :=
  Var.Build (map Var.u xs) (map Var.v xs) (map Var.w xs) (map Var.s xs).

(** A history dict with further entries appended to each of its lists. *)
Definition extend (h more : Var.dict (list F)) : Var.dict (list F) :=
  Var.Build (Var.u h ++ Var.u more) (Var.v h ++ Var.v more)
            (Var.w h ++ Var.w more) (Var.s h ++ Var.s more).

(** [self] with another history dict. *)
Definition with_history (h : Var.dict (list F)) (self : BuenoOrovio0D.t F)
    : BuenoOrovio0D.t F :=
  BuenoOrovio0D.Build (BuenoOrovio0D.dt self)
    (BuenoOrovio0D.stimulations self) (BuenoOrovio0D.variables self)
    (BuenoOrovio0D.parameters self) h.
End Integrator.
End Integrator.

(** ** Parameter sets, states and protocols the statements refer to *)

(** Every time constant of the parameter set is strictly positive. *)
Definition positive_time_constants (p : Par.dict R) : Prop :=
  (0 < Par.tau_v1_m p /\ 0 < Par.tau_v2_m p /\ 0 < Par.tau_v_p p
   /\ 0 < Par.tau_w1_m p /\ 0 < Par.tau_w2_m p /\ 0 < Par.tau_w_p p
   /\ 0 < Par.tau_fi p /\ 0 < Par.tau_o1 p /\ 0 < Par.tau_o2 p
   /\ 0 < Par.tau_so1 p /\ 0 < Par.tau_so2 p
   /\ 0 < Par.tau_s1 p /\ 0 < Par.tau_s2 p /\ 0 < Par.tau_si p
   /\ 0 < Par.tau_w_inf p)%R.

(** A depolarised cell: the resting gates with [u = 0.5], above every
    threshold of the default parameter set. *)
Definition excited {F : Type} `{PyFloat F} : Var.dict F :=
  Var.Build (lit 0.5) (lit 1.0) (lit 1.0) (lit 0.0).

(** The derivative of [s] at the default initial state, under the default
    parameters: [((1 + tanh(k_s*(u - u_s)))/2 - s)/tau_s1] at [u = s = 0]. *)
Definition resting_ds_dt : R :=
  let p := ops.get_parameters in
  let x := ops.get_variables in
  (((1 + Rtrigo_def.tanh (Par.k_s p * (Var.u x - Par.u_s p))) / 2 - Var.s x)
   / Par.tau_s1 p)%R.

(** [Stimulation(t_start=0.2, duration=0.2, amplitude=3.0)]: its window
    overlaps the window of [pulse] below on [0.2, 0.3). *)
Definition late_pulse {F : Type} `{PyFloat F} : Stimulation.t F :=
  Stimulation.Build (lit 0.2) (lit 0.2) (lit 3.0).

(** Three entries that are active on [[0, 1)], with the amplitudes [0.1],
    [0.2] and [0.3]. *)
Definition weak_pulses {F : Type} `{PyFloat F} : list (Stimulation.t F) :=
  [Stimulation.Build (lit 0.0) (lit 1.0) (lit 0.1);
   Stimulation.Build (lit 0.0) (lit 1.0) (lit 0.2);
   Stimulation.Build (lit 0.0) (lit 1.0) (lit 0.3)].

(** [Stimulation(t_start=0.1, duration=0.0, amplitude=5.0)]: an entry whose
    window is empty. *)
Definition null_pulse {F : Type} `{PyFloat F} : Stimulation.t F :=
  Stimulation.Build (lit 0.1) (lit 0.0) (lit 5.0).

(** [Stimulation(t_start=0.1, duration=0.2, amplitude=5.0)] *)
Definition pulse {F : Type} `{PyFloat F} : Stimulation.t F :=
  Stimulation.Build (lit 0.1) (lit 0.2) (lit 5.0).

(** ** Modified objects, [step] stage by stage, and idle steps *)

Section Stages.
Context {F : Type} `{PyFloat F} `{MathLib F}.
Local Open Scope py_scope.

(** [self] with other values in [self.variables]. *)
Definition with_variables (x : Var.dict F) (self : BuenoOrovio0D.t F)
    : BuenoOrovio0D.t F :=
  BuenoOrovio0D.Build (BuenoOrovio0D.dt self)
    (BuenoOrovio0D.stimulations self) x
    (BuenoOrovio0D.parameters self) (BuenoOrovio0D.history self).

(** [self] with another parameter dict. *)
Definition with_parameters (p : Par.dict F) (self : BuenoOrovio0D.t F)
    : BuenoOrovio0D.t F :=
  BuenoOrovio0D.Build (BuenoOrovio0D.dt self)
    (BuenoOrovio0D.stimulations self) (BuenoOrovio0D.variables self)
    p (BuenoOrovio0D.history self).

(** [self] with another stimulation list. *)
Definition with_stimulations (stims : list (Stimulation.t F))
    (self : BuenoOrovio0D.t F) : BuenoOrovio0D.t F :=
  BuenoOrovio0D.Build (BuenoOrovio0D.dt self) stims
    (BuenoOrovio0D.variables self) (BuenoOrovio0D.parameters self)
    (BuenoOrovio0D.history self).

(** [parameters["tau_fi"] = x] *)
Definition set_tau_fi (x : F) (p : Par.dict F) : Par.dict F :=
  {| Par.u_o := Par.u_o p; Par.u_u := Par.u_u p;
     Par.theta_v := Par.theta_v p; Par.theta_w := Par.theta_w p;
     Par.theta_v_m := Par.theta_v_m p; Par.theta_o := Par.theta_o p;
     Par.tau_v1_m := Par.tau_v1_m p; Par.tau_v2_m := Par.tau_v2_m p;
     Par.tau_v_p := Par.tau_v_p p; Par.tau_w1_m := Par.tau_w1_m p;
     Par.tau_w2_m := Par.tau_w2_m p; Par.k_w_m := Par.k_w_m p;
     Par.u_w_m := Par.u_w_m p; Par.tau_w_p := Par.tau_w_p p;
     Par.tau_fi := x;
     Par.tau_o1 := Par.tau_o1 p; Par.tau_o2 := Par.tau_o2 p;
     Par.tau_so1 := Par.tau_so1 p; Par.tau_so2 := Par.tau_so2 p;
     Par.k_so := Par.k_so p; Par.u_so := Par.u_so p;
     Par.tau_s1 := Par.tau_s1 p; Par.tau_s2 := Par.tau_s2 p;
     Par.k_s := Par.k_s p; Par.u_s := Par.u_s p;
     Par.tau_si := Par.tau_si p; Par.tau_w_inf := Par.tau_w_inf p;
     Par.w_inf_ := Par.w_inf_ p |}.

(** [step], statement by statement: the four assignments to
    [self.variables] in the order of the source, each with the object it
    leaves when the call on its right-hand side raises. *)
Definition step_by_stage (i : Z) (self : BuenoOrovio0D.t F)
    : BuenoOrovio0D.t F * outcome unit :=
  let p := BuenoOrovio0D.parameters self in
  let dt := BuenoOrovio0D.dt self in
  let x := BuenoOrovio0D.variables self in
  match Integrator.dv_dt p x with
  | Raises e => (self, Raises e)
  | Returns dv =>
      let x1 := Var.Build (Var.u x) (Var.v x + dt * dv) (Var.w x) (Var.s x) in
      match Integrator.dw_dt p x with
      | Raises e => (with_variables x1 self, Raises e)
      | Returns dw =>
          let x2 := Var.Build (Var.u x) (Var.v x1) (Var.w x + dt * dw)
                      (Var.s x) in
          match Integrator.ds_dt p x with
          | Raises e => (with_variables x2 self, Raises e)
          | Returns ds =>
              let x3 := Var.Build (Var.u x) (Var.v x1) (Var.w x2)
                          (Var.s x + dt * ds) in
              match Integrator.du_dt p (BuenoOrovio0D.stimulations self)
                      dt i x3 with
              | Raises e => (with_variables x3 self, Raises e)
              | Returns du =>
                  (with_variables
                     (Var.Build (Var.u x + dt * du) (Var.v x3) (Var.w x3)
                        (Var.s x3)) self,
                   Returns tt)
              end
          end
      end
  end.

(** The window test of [stim]:
    [self.t_start <= t < self.t_start + self.duration]. *)
Definition window_open (e : Stimulation.t F) (t : F) : bool :=
  (Stimulation.t_start e <=? t)
  && (t <? Stimulation.t_start e + Stimulation.duration e).

(** Step [i] finds every window closed: the index converts to a float and
    the window test of every entry fails at the product [dt*i] that [step]
    computes. *)
Definition idle_at (self : BuenoOrovio0D.t F) (i : Z) : bool :=
  match mul_int (BuenoOrovio0D.dt self) i with
  | Returns t =>
      forallb (fun e => negb (window_open e t))
        (BuenoOrovio0D.stimulations self)
  | Raises _ => false
  end.
End Stages.

(** On binary64, the exception that [int(round(t_max/dt))] raises for a
    [t_max] that is a NaN or an infinity, by the kind of [dt]: the
    division raises on a zero [dt]; otherwise [round] raises, with
    [ValueError] on a NaN quotient and [OverflowError] on an infinite
    one. *)
Definition non_finite_error (t_max_is_nan : bool) (dt : float) : exn :=
  match Prim2SF dt with
  | S754_zero _ => ZeroDivisionError
  | S754_nan | S754_infinity _ => ValueError
  | S754_finite _ _ _ =>
      if t_max_is_nan then ValueError else OverflowError
  end.

(** A freshly constructed model whose [tau_fi] has been set to zero. *)
Definition zero_tau_fi_model : BuenoOrovio0D.t R :=
  with_parameters (set_tau_fi 0%R ops.get_parameters)
    (BuenoOrovio0D.init 1%R []).

(** [pulse] sampled every 0.5 time units: its window [[0.1, 0.3)] holds
    no sample time. *)
Definition coarse_model {F : Type} `{PyFloat F} : BuenoOrovio0D.t F :=
  BuenoOrovio0D.init (lit 0.5) [pulse].

(** ** Tactics *)

(** Case analysis on the results of the calls a method makes, in order. *)
Ltac case_calls :=
  repeat match goal with
  | |- context [match ?c with Returns _ => _ | Raises _ => _ end] =>
      lazymatch c with
      | context [match _ with Returns _ => _ | Raises _ => _ end] => fail
      | _ => destruct c eqn:?; cbn
      end
  end.

(** Decimal literals as quotients of integers. *)
Ltac lit_R := unfold Q2R; cbn [Qnum Qden].

(** Case analysis on every comparison and zero test of the goal. *)
Ltac R_cases :=
  repeat match goal with
  | |- context [Rlt_dec ?a ?b] => destruct (Rlt_dec a b); cbn
  | |- context [Rle_dec ?a ?b] => destruct (Rle_dec a b); cbn
  | |- context [Req_dec_T ?a ?b] => destruct (Req_dec_T a b); cbn
  end.

Ltac R_eval :=
  cbn; R_cases; try reflexivity; try contradiction; try (exfalso; lra).

(** The same, on concrete numbers: the branch not taken is closed at once. *)
Ltac R_decide :=
  repeat match goal with
  | |- context [Rlt_dec ?a ?b] =>
      destruct (Rlt_dec a b);
      [try (exfalso; lra) | try (exfalso; lra)]; cbn
  | |- context [Rle_dec ?a ?b] =>
      destruct (Rle_dec a b);
      [try (exfalso; lra) | try (exfalso; lra)]; cbn
  | |- context [Req_dec_T ?a ?b] =>
      destruct (Req_dec_T a b);
      [try (exfalso; lra) | try (exfalso; lra)]; cbn
  end.

(** The hypotheses of [positive_time_constants], one by one. *)
Ltac ptc H :=
  destruct H as (Hv1 & Hv2 & Hvp & Hw1 & Hw2 & Hwp & Hfi & Ho1 & Ho2
                 & Hso1 & Hso2 & Hs1 & Hs2 & Hsi & Hwinf).

(** Every definition of the kinetics and of the scheme, unfolded. *)
Ltac unfold_model :=
  unfold Integrator.sequential_step, Integrator.forward_euler_step,
    Integrator.dv_dt, Integrator.dw_dt, Integrator.ds_dt, Integrator.du_dt,
    Integrator.reaction, Integrator.stimulus_values, Integrator.stimulus,
    Integrator.n_steps,
    ops.calc_v, ops.calc_w, ops.calc_s, ops.calc_Jfi, ops.calc_Jso,
    ops.calc_Jsi, ops.calc_tau_w_m, ops.calc_tau_so, ops.calc_w_inf,
    ops.calc_tau_v_m, ops.calc_tau_s, ops.calc_tau_o, ops.calc_v_inf,
    ops.H_gate, ops.calc_rhs, Stimulation.stim, truediv, sum.

(** * Properties *)

(** ** Facts that hold at every instance of the numeric protocol *)

Section Generic.
Context {F : Type} `{PyFloat F} `{MathLib F}.

Lemma step_is_sequential (i : Z) (self : BuenoOrovio0D.t F) :
  Integrator.step_variables i self =
  Integrator.sequential_step (BuenoOrovio0D.parameters self)
    (BuenoOrovio0D.dt self) (BuenoOrovio0D.stimulations self) i
    (BuenoOrovio0D.variables self).
Proof.
  destruct self as [dt stims [u v w s] p h].
  unfold Integrator.step_variables, Integrator.sequential_step,
    BuenoOrovio0D.step, Integrator.dv_dt, Integrator.dw_dt,
    Integrator.ds_dt, Integrator.du_dt, Integrator.reaction,
    Integrator.stimulus.
  cbn. case_calls; reflexivity.
Qed.

(** [step] reads and writes [self.variables] only: the other attributes
    come out as they went in, and the history plays no part. *)
Lemma step_with_history (i : Z) (h : Var.dict (list F))
    (self : BuenoOrovio0D.t F) :
  BuenoOrovio0D.step i (Integrator.with_history h self) =
  (Integrator.with_history h (fst (BuenoOrovio0D.step i self)),
   snd (BuenoOrovio0D.step i self)).
Proof.
  destruct self as [dt stims [u v w s] p h0].
  unfold BuenoOrovio0D.step, Integrator.with_history.
  cbn. case_calls; reflexivity.
Qed.

Lemma step_frame (i : Z) (self : BuenoOrovio0D.t F) :
  let self' := fst (BuenoOrovio0D.step i self) in
  BuenoOrovio0D.dt self' = BuenoOrovio0D.dt self
  /\ BuenoOrovio0D.stimulations self' = BuenoOrovio0D.stimulations self
  /\ BuenoOrovio0D.parameters self' = BuenoOrovio0D.parameters self
  /\ BuenoOrovio0D.history self' = BuenoOrovio0D.history self.
Proof.
  destruct self as [dt stims [u v w s] p h0].
  unfold BuenoOrovio0D.step.
  cbn. case_calls; repeat split; reflexivity.
Qed.

Lemma post_states_with_history (items : list Z) (h : Var.dict (list F))
    (self : BuenoOrovio0D.t F) :
  Integrator.post_states items (Integrator.with_history h self) =
  Integrator.post_states items self.
Proof.
  revert h self. induction items as [| i rest IH]; intros h self.
  - reflexivity.
  - cbn [Integrator.post_states]. rewrite step_with_history.
    destruct (BuenoOrovio0D.step i self) as [self' [[] | e]] eqn:E;
      cbn [fst snd].
    + rewrite IH. reflexivity.
    + reflexivity.
Qed.

Lemma post_states_length_le (items : list Z) (self : BuenoOrovio0D.t F) :
  (length (Integrator.post_states items self) <= length items)%nat.
Proof.
  revert self. induction items as [| i rest IH]; intros self;
    [apply Nat.le_refl |].
  cbn [Integrator.post_states length].
  destruct (BuenoOrovio0D.step i self) as [self' [[] | e]];
    cbn [length]; [| apply Nat.le_0_l].
  apply le_n_S, IH.
Qed.

Lemma for_each_cons (i : Z) (rest : list Z)
    (body : Z -> BuenoOrovio0D.method F unit) (self : BuenoOrovio0D.t F) :
  BuenoOrovio0D.for_each (i :: rest) body self =
  match body i self with
  | (self', Returns _) => BuenoOrovio0D.for_each rest body self'
  | (self', Raises e) => (self', Raises e)
  end.
Proof. reflexivity. Qed.

Lemma run_body_unfold (i : Z) (self : BuenoOrovio0D.t F) :
  Integrator.run_body i self =
  match BuenoOrovio0D.step i self with
  | (self', Returns _) => BuenoOrovio0D.append_history self'
  | (self', Raises e) => (self', Raises e)
  end.
Proof. reflexivity. Qed.

Lemma last_cons_default {A : Type} (l : list A) (x d : A) :
  last (x :: l) d = last l x.
Proof.
  revert x d. induction l as [| y l IH]; intros x d; [reflexivity |].
  change (last (x :: y :: l) d) with (last (y :: l) d).
  rewrite (IH y d), (IH y x). reflexivity.
Qed.

Lemma append_history_spec (self : BuenoOrovio0D.t F) :
  BuenoOrovio0D.append_history self =
  (Integrator.with_history
     (Integrator.extend (BuenoOrovio0D.history self)
        (Integrator.columns [BuenoOrovio0D.variables self])) self,
   Returns tt).
Proof. reflexivity. Qed.

Lemma extend_nil (h : Var.dict (list F)) :
  Integrator.extend h (Integrator.columns []) = h.
Proof.
  destruct h; unfold Integrator.extend; cbn.
  rewrite !app_nil_r. reflexivity.
Qed.

Lemma extend_cons (h : Var.dict (list F)) (x : Var.dict F)
    (xs : list (Var.dict F)) :
  Integrator.extend (Integrator.extend h (Integrator.columns [x]))
    (Integrator.columns xs)
  = Integrator.extend h (Integrator.columns (x :: xs)).
Proof.
  destruct h; unfold Integrator.extend; cbn.
  rewrite <- !app_assoc. reflexivity.
Qed.

Lemma extend_app (h : Var.dict (list F)) (xs ys : list (Var.dict F)) :
  Integrator.extend (Integrator.extend h (Integrator.columns xs))
    (Integrator.columns ys)
  = Integrator.extend h (Integrator.columns (xs ++ ys)).
Proof.
  destruct h; unfold Integrator.extend; cbn.
  rewrite !map_app, <- !app_assoc. reflexivity.
Qed.

Lemma extend_empty (more : Var.dict (list F)) :
  Integrator.extend (Var.Build [] [] [] []) more = more.
Proof. destruct more; reflexivity. Qed.

Lemma columns_lengths (xs : list (Var.dict F)) :
  length (Var.u (Integrator.columns xs)) = length xs
  /\ length (Var.v (Integrator.columns xs)) = length xs
  /\ length (Var.w (Integrator.columns xs)) = length xs
  /\ length (Var.s (Integrator.columns xs)) = length xs.
Proof. cbn. now rewrite !length_map. Qed.

(** The loop of [run], whatever the steps do: the history grows by the
    states of the completed steps, the loop returns exactly when every
    step did, and then leaves the last of these states in [self]. *)
Lemma for_each_spec (items : list Z) (self : BuenoOrovio0D.t F) :
  let r := BuenoOrovio0D.for_each items Integrator.run_body self in
  let xs := Integrator.post_states items self in
  BuenoOrovio0D.history (fst r)
    = Integrator.extend (BuenoOrovio0D.history self) (Integrator.columns xs)
  /\ BuenoOrovio0D.dt (fst r) = BuenoOrovio0D.dt self
  /\ BuenoOrovio0D.stimulations (fst r) = BuenoOrovio0D.stimulations self
  /\ BuenoOrovio0D.parameters (fst r) = BuenoOrovio0D.parameters self
  /\ (snd r = Returns tt <-> length xs = length items)
  /\ (snd r = Returns tt ->
      BuenoOrovio0D.variables (fst r)
      = last xs (BuenoOrovio0D.variables self)).
Proof.
  revert self. induction items as [| i rest IH]; intros self; cbn zeta.
  - cbn. rewrite extend_nil. repeat split; reflexivity.
  - rewrite for_each_cons, run_body_unfold. cbn [Integrator.post_states].
    pose proof (step_frame i self) as (Hdt & Hst & Hp & Hh).
    destruct (BuenoOrovio0D.step i self) as [self1 [[] | e]] eqn:E;
      cbn [fst snd] in *.
    + rewrite append_history_spec. cbv iota. rewrite Hh.
      specialize (IH (Integrator.with_history
         (Integrator.extend (BuenoOrovio0D.history self)
            (Integrator.columns [BuenoOrovio0D.variables self1])) self1)).
      cbn zeta in IH. rewrite post_states_with_history in IH.
      destruct IH as (IHh & IHdt & IHst & IHp & IHr & IHv).
      rewrite IHh, IHdt, IHst, IHp.
      cbn [Integrator.with_history BuenoOrovio0D.history BuenoOrovio0D.dt
           BuenoOrovio0D.stimulations BuenoOrovio0D.parameters
           BuenoOrovio0D.variables] in *.
      rewrite extend_cons.
      repeat split; try assumption.
      * intros Hr. cbn [length]. f_equal. apply IHr, Hr.
      * intros Hl. cbn [length] in Hl. apply IHr. lia.
      * intros Hr. rewrite (IHv Hr), last_cons_default. reflexivity.
    + rewrite extend_nil.
      repeat split; try assumption; try discriminate.
Qed.

Lemma run_unfold (t_max : F) (self : BuenoOrovio0D.t F) :
  BuenoOrovio0D.run t_max self =
  match Integrator.n_steps t_max (BuenoOrovio0D.dt self) with
  | Returns n => BuenoOrovio0D.for_each (range n) Integrator.run_body self
  | Raises e => (self, Raises e)
  end.
Proof.
  unfold BuenoOrovio0D.run, Integrator.n_steps. cbn.
  destruct (truediv t_max (BuenoOrovio0D.dt self)) as [q | e]; cbn;
    [| reflexivity].
  destruct (py_round q) as [n | e]; reflexivity.
Qed.

Lemma run_spec (t_max : F) (self : BuenoOrovio0D.t F) :
  let self' := fst (BuenoOrovio0D.run t_max self) in
  BuenoOrovio0D.history self'
    = Integrator.extend (BuenoOrovio0D.history self)
        (Integrator.columns (Integrator.run_states t_max self))
  /\ BuenoOrovio0D.dt self' = BuenoOrovio0D.dt self
  /\ BuenoOrovio0D.stimulations self' = BuenoOrovio0D.stimulations self
  /\ BuenoOrovio0D.parameters self' = BuenoOrovio0D.parameters self.
Proof.
  cbn zeta. rewrite run_unfold. unfold Integrator.run_states.
  destruct (Integrator.n_steps t_max (BuenoOrovio0D.dt self)) as [n | e].
  - pose proof (for_each_spec (range n) self) as HS. cbn zeta in HS.
    tauto.
  - cbn [fst]. rewrite extend_nil. auto.
Qed.

Lemma run_all_history (ts : list F) (self : BuenoOrovio0D.t F) :
  BuenoOrovio0D.history (Integrator.run_all ts self)
  = Integrator.extend (BuenoOrovio0D.history self)
      (Integrator.columns (Integrator.run_all_states ts self)).
Proof.
  revert self. induction ts as [| t_max rest IH]; intros self.
  - cbn [Integrator.run_all Integrator.run_all_states].
    now rewrite extend_nil.
  - cbn [Integrator.run_all Integrator.run_all_states]. rewrite IH.
    destruct (run_spec t_max self) as (-> & _).
    apply extend_app.
Qed.

Lemma run_all_app (ts ts' : list F) (self : BuenoOrovio0D.t F) :
  Integrator.run_all (ts ++ ts') self
  = Integrator.run_all ts' (Integrator.run_all ts self).
Proof.
  revert self. induction ts as [| t_max rest IH]; intros self;
    [reflexivity | apply IH].
Qed.

(** When the index converts, every entry is sampled at the same time
    [dt*i]. *)
Lemma stimulus_values_at (stims : list (Stimulation.t F)) (dt : F) (i : Z)
    (t : F) :
  mul_int dt i = Returns t ->
  Integrator.stimulus_values stims dt i
  = Returns (map (fun stim => Stimulation.stim stim t) stims).
Proof.
  intros Ht. unfold Integrator.stimulus_values.
  induction stims as [| e l IH]; [reflexivity |].
  cbn [map_outcome map]. rewrite IH, Ht. reflexivity.
Qed.

(** Whether [reaction] raises depends on [u] and the parameters only. *)
Lemma reaction_raises_alike (p : Par.dict F) (u v w s v' w' s' : F) :
  match Integrator.reaction p (Var.Build u v w s),
        Integrator.reaction p (Var.Build u v' w' s') with
  | Returns _, Returns _ => True
  | Raises e, Raises e' => e = e'
  | _, _ => False
  end.
Proof.
  unfold Integrator.reaction, ops.calc_Jfi, ops.calc_Jso, ops.calc_Jsi,
    ops.calc_tau_so, truediv.
  cbn.
  repeat match goal with
  | |- context [is_zero ?a] => destruct (is_zero a); cbn
  end; auto.
Qed.

Lemma step_gates_as_forward_euler (i : Z) (self : BuenoOrovio0D.t F) :
  Integrator.agree_on_gates
    (Integrator.step_variables i self)
    (Integrator.forward_euler_step (BuenoOrovio0D.parameters self)
       (BuenoOrovio0D.dt self) (BuenoOrovio0D.stimulations self) i
       (BuenoOrovio0D.variables self)).
Proof.
  rewrite step_is_sequential.
  destruct self as [dt stims [u v w s] p h].
  cbn [BuenoOrovio0D.parameters BuenoOrovio0D.dt BuenoOrovio0D.stimulations
       BuenoOrovio0D.variables].
  unfold Integrator.sequential_step, Integrator.forward_euler_step,
    Integrator.du_dt, Integrator.agree_on_gates.
  set (x := Var.Build u v w s).
  destruct (Integrator.dv_dt p x) as [dv | e]; cbn [bind outcome_monad ret];
    [| reflexivity].
  destruct (Integrator.dw_dt p x) as [dw | e]; cbn [bind outcome_monad ret];
    [| reflexivity].
  destruct (Integrator.ds_dt p x) as [ds | e]; cbn [bind outcome_monad ret];
    [| reflexivity].
  cbv zeta. unfold x at 1 2 3 4. cbn [Var.u Var.v Var.w Var.s].
  match goal with
  | |- context [Integrator.reaction p (Var.Build u ?a ?b ?c)] =>
      pose proof (reaction_raises_alike p u a b c v w s) as Hr;
      fold x in Hr;
      destruct (Integrator.reaction p (Var.Build u a b c)) as [r' | e']
  end;
  destruct (Integrator.reaction p x) as [r | e];
    try contradiction; cbn [bind outcome_monad ret]; auto.
  destruct (Integrator.stimulus_values stims dt i) as [values | e2];
    cbn; auto.
Qed.
End Generic.

(** ** Exact real arithmetic: the kinetics in closed form *)

Section Reals.
Local Open Scope R_scope.

Lemma tanh_bounds (x : R) : -1 < Rtrigo_def.tanh x < 1.
Proof.
  unfold Rtrigo_def.tanh, sinh, cosh.
  pose proof (exp_pos x) as Ha. pose proof (exp_pos (- x)) as Hb.
  set (a := exp x) in *. set (b := exp (- x)) in *.
  assert (Hc : 0 < (a + b) / 2) by lra.
  split; apply Rmult_lt_reg_r with ((a + b) / 2); try exact Hc;
    replace ((a - b) / 2 / ((a + b) / 2) * ((a + b) / 2))
      with ((a - b) / 2) by (field; lra); lra.
Qed.

(** [(1 + tanh x) / 2] for [-2 <= x <= -1.9]: between [1/83] and [1/9]. *)
Lemma sigmoid_bounds (x : R) :
  -2 <= x <= -19 / 10 ->
  1 / 83 < (1 + Rtrigo_def.tanh x) / 2 < 1 / 9.
Proof.
  intros [Hlo Hhi].
  unfold Rtrigo_def.tanh, sinh, cosh.
  pose proof (exp_pos x) as HA.
  assert (HAB : exp x * exp (- x) = 1).
  { rewrite <- exp_plus. replace (x + - x) with 0 by lra. apply exp_0. }
  assert (HB9 : exp (- x) <= 9).
  { apply Rle_trans with (exp (1 + 1)).
    - destruct (Req_dec (- x) (1 + 1)) as [-> | Hne]; [apply Rle_refl |].
      left. apply exp_increasing. lra.
    - rewrite exp_plus. pose proof exp_le_3. pose proof (exp_pos 1). nra. }
  assert (HB2 : 29 / 10 <= exp (- x)).
  { pose proof (exp_ineq1_le (- x)). lra. }
  set (A := exp x) in *. set (B := exp (- x)) in *.
  assert (HQ : (A - B) / 2 / ((A + B) / 2) * (A + B) = A - B)
    by (field; lra).
  set (Q := (A - B) / 2 / ((A + B) / 2)) in *.
  assert (HBB : B = A * (B * B)) by (rewrite <- Rmult_assoc, HAB; lra).
  assert (Hup : B <= 81 * A) by nra.
  assert (Hlow : (841 / 100) * A <= B) by nra.
  assert (Hs : 0 < A + B) by lra.
  split.
  - apply Rnot_le_lt. intros Hc.
    assert (Q <= - (81 / 83)) by lra.
    assert (Q * (A + B) <= - (81 / 83) * (A + B)) by nra. lra.
  - apply Rnot_le_lt. intros Hc.
    assert (- (7 / 9) <= Q) by lra.
    assert (- (7 / 9) * (A + B) <= Q * (A + B)) by nra. lra.
Qed.

Lemma lit_0 : lit (F := R) 0.0 = 0.
Proof. cbn. lit_R. lra. Qed.

Lemma truediv_R (x y : R) : y <> 0 -> truediv x y = Returns (x / y).
Proof. intros Hy. unfold truediv. R_eval. Qed.

Lemma mul_int_R (x : R) (i : Z) : mul_int x i = Returns (x * IZR i).
Proof. reflexivity. Qed.

(** Over the reals the conversion of the step index never raises: every
    entry is sampled at [dt*i]. *)
Lemma stimulus_values_R (stims : list (Stimulation.t R)) (dt : R) (i : Z) :
  Integrator.stimulus_values stims dt i
  = Returns (map (fun stim => Stimulation.stim stim (dt * IZR i)) stims).
Proof.
  unfold Integrator.stimulus_values.
  induction stims as [| e l IH]; [reflexivity |].
  cbn [map_outcome map]. rewrite IH, mul_int_R. reflexivity.
Qed.

Lemma du_dt_R (p : Par.dict R) (stims : list (Stimulation.t R)) (dt : R)
    (i : Z) (x : Var.dict R) :
  Integrator.du_dt p stims dt i x
  = match Integrator.reaction p x with
    | Returns r => Returns (r + Integrator.stimulus stims (dt * IZR i))
    | Raises e => Raises e
    end.
Proof.
  unfold Integrator.du_dt. rewrite stimulus_values_R.
  destruct (Integrator.reaction p x); reflexivity.
Qed.

Lemma calc_v_R (v u theta_v v_inf tau_v_m tau_v_p : R) :
  tau_v_m <> 0 -> tau_v_p <> 0 ->
  ops.calc_v v u theta_v v_inf tau_v_m tau_v_p
  = Returns (if Rlt_dec (u - theta_v) 0 then (v_inf - v) / tau_v_m
             else - v / tau_v_p).
Proof. intros. unfold ops.calc_v, truediv. R_eval. Qed.

Lemma calc_w_R (w u theta_w w_inf tau_w_m tau_w_p : R) :
  tau_w_m <> 0 -> tau_w_p <> 0 ->
  ops.calc_w w u theta_w w_inf tau_w_m tau_w_p
  = Returns (if Rlt_dec (u - theta_w) 0 then (w_inf - w) / tau_w_m
             else - w / tau_w_p).
Proof. intros. unfold ops.calc_w, truediv. R_eval. Qed.

Lemma calc_s_R (s u tau_s k_s u_s : R) (tanh : R -> R) :
  tau_s <> 0 ->
  ops.calc_s s u tau_s k_s u_s tanh
  = Returns (((1 + tanh (k_s * (u - u_s))) / 2 - s) / tau_s).
Proof. intros. unfold ops.calc_s, truediv. R_eval. Qed.

Lemma H_gate_R (u theta : R) :
  ops.H_gate u theta = if Rle_dec 0 (u - theta) then 1 else 0.
Proof. unfold ops.H_gate. cbn - [Q2R]. R_cases; lit_R; lra. Qed.

Lemma calc_Jfi_R (u v theta_v u_u tau_fi : R) :
  tau_fi <> 0 ->
  ops.calc_Jfi u v theta_v u_u tau_fi
  = Returns (- v * ops.H_gate u theta_v * (u - theta_v) * (u_u - u)
             / tau_fi).
Proof.
  intros. unfold ops.calc_Jfi. cbv zeta. apply truediv_R. assumption.
Qed.

Lemma calc_Jso_R (u u_o theta_w tau_o tau_so : R) :
  tau_o <> 0 -> tau_so <> 0 ->
  ops.calc_Jso u u_o theta_w tau_o tau_so
  = Returns ((u - u_o) * (1 - ops.H_gate u theta_w) / tau_o
             + ops.H_gate u theta_w / tau_so).
Proof.
  intros. unfold ops.calc_Jso. cbv zeta.
  rewrite !truediv_R by assumption. reflexivity.
Qed.

Lemma calc_Jsi_R (u w s theta_w tau_si : R) :
  tau_si <> 0 ->
  ops.calc_Jsi u w s theta_w tau_si
  = Returns (- ops.H_gate u theta_w * w * s / tau_si).
Proof.
  intros. unfold ops.calc_Jsi. cbv zeta. apply truediv_R. assumption.
Qed.

Lemma calc_tau_w_m_R (u tau_w1_m tau_w2_m k_w_m u_w_m : R)
    (tanh : R -> R) :
  ops.calc_tau_w_m u tau_w1_m tau_w2_m k_w_m u_w_m tanh
  = Returns (tau_w1_m
             + (tau_w2_m - tau_w1_m) * (1 + tanh (k_w_m * (u - u_w_m)))
               / 2).
Proof. unfold ops.calc_tau_w_m, truediv. R_eval. Qed.

Lemma calc_tau_so_R (u tau_so1 tau_so2 k_so u_so : R) (tanh : R -> R) :
  ops.calc_tau_so u tau_so1 tau_so2 k_so u_so tanh
  = Returns (tau_so1
             + (tau_so2 - tau_so1) * (1 + tanh (k_so * (u - u_so))) / 2).
Proof. unfold ops.calc_tau_so, truediv. R_eval. Qed.

Lemma calc_w_inf_R (u theta_o tau_w_inf w_inf_ : R) :
  tau_w_inf <> 0 ->
  ops.calc_w_inf u theta_o tau_w_inf w_inf_
  = Returns (if Rlt_dec (u - theta_o) 0 then 1 - u / tau_w_inf
             else w_inf_).
Proof. intros. unfold ops.calc_w_inf, truediv. R_eval. Qed.

Lemma calc_v_inf_R (u theta_v_m : R) :
  ops.calc_v_inf u theta_v_m = if Rlt_dec u theta_v_m then 1 else 0.
Proof. unfold ops.calc_v_inf. cbn - [Q2R]. R_cases; lit_R; lra. Qed.

(** A tanh blend of two positive time constants is positive. *)
Lemma blend_pos (t1 t2 T : R) :
  0 < t1 -> 0 < t2 -> -1 < T < 1 -> 0 < t1 + (t2 - t1) * (1 + T) / 2.
Proof. intros H1 H2 [Hl Hu]. nra. Qed.

Lemma defaults_positive : positive_time_constants ops.get_parameters.
Proof. unfold positive_time_constants. cbn. lit_R. repeat split; lra. Qed.

(** With strictly positive time constants no division of a step raises. *)
Lemma dv_dt_returns (p : Par.dict R) (x : Var.dict R) :
  positive_time_constants p -> exists d, Integrator.dv_dt p x = Returns d.
Proof.
  intros Hp. ptc Hp. unfold Integrator.dv_dt. cbv zeta.
  rewrite calc_v_R; [eauto | | lra].
  unfold ops.calc_tau_v_m. cbn. R_cases; lra.
Qed.

Lemma dw_dt_returns (p : Par.dict R) (x : Var.dict R) :
  positive_time_constants p -> exists d, Integrator.dw_dt p x = Returns d.
Proof.
  intros Hp. ptc Hp. unfold Integrator.dw_dt.
  rewrite calc_w_inf_R by lra. rewrite calc_tau_w_m_R. cbn [bind outcome_monad].
  rewrite calc_w_R; [eauto | | lra].
  apply Rgt_not_eq, Rlt_gt, blend_pos; try assumption. apply tanh_bounds.
Qed.

Lemma ds_dt_returns (p : Par.dict R) (x : Var.dict R) :
  positive_time_constants p -> exists d, Integrator.ds_dt p x = Returns d.
Proof.
  intros Hp. ptc Hp. unfold Integrator.ds_dt. cbv zeta.
  rewrite calc_s_R; [eauto |].
  unfold ops.calc_tau_s. cbn. R_cases; lra.
Qed.

Lemma reaction_returns (p : Par.dict R) (x : Var.dict R) :
  positive_time_constants p -> exists r, Integrator.reaction p x = Returns r.
Proof.
  intros Hp. ptc Hp. unfold Integrator.reaction.
  rewrite calc_Jfi_R by lra. rewrite calc_tau_so_R. cbn [bind outcome_monad].
  rewrite calc_Jso_R.
  - rewrite calc_Jsi_R by lra. cbn [bind outcome_monad ret]. eauto.
  - unfold ops.calc_tau_o. cbn. R_cases; lra.
  - apply Rgt_not_eq, Rlt_gt, blend_pos; try assumption. apply tanh_bounds.
Qed.

Lemma sequential_step_returns (p : Par.dict R) dt stims i (x : Var.dict R) :
  positive_time_constants p ->
  exists x', Integrator.sequential_step p dt stims i x = Returns x'.
Proof.
  intros Hp. unfold Integrator.sequential_step.
  destruct (dv_dt_returns p x Hp) as [dv ->].
  destruct (dw_dt_returns p x Hp) as [dw ->].
  destruct (ds_dt_returns p x Hp) as [ds ->].
  cbn [bind outcome_monad]. cbv zeta. rewrite du_dt_R.
  match goal with |- context [Integrator.reaction p ?y] =>
    destruct (reaction_returns p y Hp) as [r ->] end.
  cbn [bind outcome_monad ret]. eauto.
Qed.

Lemma step_returns (i : Z) (self : BuenoOrovio0D.t R) :
  positive_time_constants (BuenoOrovio0D.parameters self) ->
  exists self', BuenoOrovio0D.step i self = (self', Returns tt).
Proof.
  intros Hp.
  destruct (sequential_step_returns _ (BuenoOrovio0D.dt self)
              (BuenoOrovio0D.stimulations self) i
              (BuenoOrovio0D.variables self) Hp) as [x' Hx].
  rewrite <- step_is_sequential in Hx. unfold Integrator.step_variables in Hx.
  destruct (BuenoOrovio0D.step i self) as [self' [[] | e]];
    [eauto | discriminate].
Qed.

Lemma post_states_length (items : list Z) (self : BuenoOrovio0D.t R) :
  positive_time_constants (BuenoOrovio0D.parameters self) ->
  length (Integrator.post_states items self) = length items.
Proof.
  revert self. induction items as [| i rest IH]; intros self Hp;
    [reflexivity |].
  cbn [Integrator.post_states].
  pose proof (step_frame i self) as (_ & _ & Hpar & _).
  destruct (step_returns i self Hp) as [self' E]. rewrite E in *.
  cbn [fst length] in *. f_equal. apply IH. now rewrite Hpar.
Qed.
End Reals.

(** Every [tanh] value of the goal becomes a variable with its bounds. *)
Ltac name_tanh :=
  repeat match goal with
  | |- context [Rtrigo_def.tanh ?a] =>
      let T := fresh "T" in
      pose proof (tanh_bounds a);
      set (T := Rtrigo_def.tanh a) in *; clearbody T
  end.

(** ** Exact real arithmetic: rounding, runs and stimuli *)

Section RealRuns.
Local Open Scope R_scope.

Lemma round_half_even_near (x : R) (z : Z) :
  IZR z - 1 / 2 < x < IZR z + 1 / 2 -> round_half_even x = z.
Proof.
  intros [Hlo Hhi]. unfold round_half_even.
  destruct (Rle_dec (IZR z) x) as [Hge | Hlt].
  - rewrite (Zfloor_eq z x) by lra.
    destruct (Rlt_dec (x - IZR z) (1 / 2)); [reflexivity | lra].
  - assert (Hf : Zfloor x = (z - 1)%Z).
    { apply Zfloor_eq. rewrite minus_IZR. lra. }
    rewrite Hf. rewrite minus_IZR.
    destruct (Rlt_dec (x - (IZR z - 1)) (1 / 2)); [lra |].
    destruct (Rlt_dec (1 / 2) (x - (IZR z - 1))); [lia | lra].
Qed.

Lemma n_steps_R (t_max dt : R) :
  dt <> 0 ->
  Integrator.n_steps t_max dt = Returns (round_half_even (t_max / dt)).
Proof.
  intros Hdt. unfold Integrator.n_steps. rewrite truediv_R by assumption.
  reflexivity.
Qed.

Lemma range_length (n : Z) : length (range n) = Z.to_nat n.
Proof. unfold range. now rewrite length_map, length_seq. Qed.

(** A run of a freshly constructed model: the default parameters are
    strictly positive, so every step completes. *)
Lemma run_defaults (t_max dt : R) (stimulations : list (Stimulation.t R)) :
  dt <> 0 ->
  let self := BuenoOrovio0D.init dt stimulations in
  let n := round_half_even (t_max / dt) in
  let xs := Integrator.post_states (range n) self in
  let r := BuenoOrovio0D.run t_max self in
  snd r = Returns tt
  /\ BuenoOrovio0D.history (fst r) = Integrator.columns xs
  /\ BuenoOrovio0D.variables (fst r)
     = last xs (BuenoOrovio0D.variables self)
  /\ length xs = Z.to_nat n.
Proof.
  intros Hdt. cbn zeta. rewrite run_unfold.
  change (BuenoOrovio0D.dt (BuenoOrovio0D.init dt stimulations)) with dt.
  rewrite n_steps_R by assumption.
  set (self := BuenoOrovio0D.init dt stimulations).
  set (n := round_half_even (t_max / dt)).
  pose proof (for_each_spec (range n) self) as HS. cbn zeta in HS.
  destruct HS as (Hh & _ & _ & _ & Hr & Hv).
  assert (Hlen : length (Integrator.post_states (range n) self)
                 = length (range n)).
  { apply post_states_length. apply defaults_positive. }
  assert (Hret : snd (BuenoOrovio0D.for_each (range n) Integrator.run_body
                        self)
                 = Returns tt) by (apply Hr, Hlen).
  repeat split.
  - exact Hret.
  - rewrite Hh. apply extend_empty.
  - apply Hv, Hret.
  - rewrite Hlen. apply range_length.
Qed.

Lemma stim_R (self : Stimulation.t R) (t : R) :
  (Stimulation.t_start self <= t
   < Stimulation.t_start self + Stimulation.duration self ->
   Stimulation.stim self t = Stimulation.amplitude self)
  /\ (~ (Stimulation.t_start self <= t
         < Stimulation.t_start self + Stimulation.duration self) ->
      Stimulation.stim self t = 0).
Proof.
  unfold Stimulation.stim. rewrite lit_0. cbn.
  split; intros Hw; R_cases; try reflexivity; lra.
Qed.

Lemma fold_left_Rplus (xs : list R) (a : R) :
  fold_left Rplus xs a = a + fold_right Rplus 0 xs.
Proof.
  revert a. induction xs as [| x xs IH]; intros a; cbn.
  - lra.
  - rewrite IH. lra.
Qed.

Lemma sum_R (xs : list R) : sum xs = fold_right Rplus 0 xs.
Proof.
  unfold sum.
  change (fold_left (add (F := R)) xs (of_int 0))
    with (fold_left Rplus xs 0).
  rewrite fold_left_Rplus. lra.
Qed.

Lemma stimulus_R (stims : list (Stimulation.t R)) (t : R) :
  Integrator.stimulus stims t
  = fold_right Rplus 0 (map (fun e => Stimulation.stim e t) stims).
Proof. unfold Integrator.stimulus. apply sum_R. Qed.

Lemma stimulus_cons (e : Stimulation.t R) (stims : list (Stimulation.t R))
    (t : R) :
  Integrator.stimulus (e :: stims) t
  = Stimulation.stim e t + Integrator.stimulus stims t.
Proof. rewrite !stimulus_R. reflexivity. Qed.

Lemma stimulus_app (l1 l2 : list (Stimulation.t R)) (t : R) :
  Integrator.stimulus (l1 ++ l2) t
  = Integrator.stimulus l1 t + Integrator.stimulus l2 t.
Proof.
  induction l1 as [| e l1 IH]; cbn [app].
  - rewrite (stimulus_R []). cbn. lra.
  - rewrite !stimulus_cons, IH. lra.
Qed.

Lemma stimulus_perm (stims stims' : list (Stimulation.t R)) (t : R) :
  Permutation stims stims' ->
  Integrator.stimulus stims t = Integrator.stimulus stims' t.
Proof.
  induction 1 as [| e l l' _ IH | a b l | l l' l'' _ IH1 _ IH2].
  - reflexivity.
  - rewrite !stimulus_cons, IH. reflexivity.
  - rewrite !stimulus_cons. lra.
  - now rewrite IH1.
Qed.

(** [step] sees the protocol only through [stimulus] at [dt * i], added
    to the reaction term. *)
Lemma sequential_step_stimulus (p : Par.dict R) (dt : R)
    (stims : list (Stimulation.t R)) (i : Z) (x : Var.dict R) :
  Integrator.sequential_step p dt stims i x
  = match Integrator.sequential_step p dt [] i x with
    | Returns y =>
        Returns (Var.Build
                   (Var.u y + dt * Integrator.stimulus stims (dt * IZR i))
                   (Var.v y) (Var.w y) (Var.s y))
    | Raises e => Raises e
    end.
Proof.
  unfold Integrator.sequential_step.
  destruct (Integrator.dv_dt p x) as [dv | e]; cbn [bind outcome_monad ret];
    [| reflexivity].
  destruct (Integrator.dw_dt p x) as [dw | e]; cbn [bind outcome_monad ret];
    [| reflexivity].
  destruct (Integrator.ds_dt p x) as [ds | e]; cbn [bind outcome_monad ret];
    [| reflexivity].
  cbv zeta. rewrite !du_dt_R.
  destruct (Integrator.reaction p _) as [r | e];
    cbn [bind outcome_monad ret]; [| reflexivity].
  cbn [Var.u Var.v Var.w Var.s]. f_equal. f_equal.
  rewrite (stimulus_R []). cbn. lra.
Qed.

Lemma resting_ds_dt_bounds : 1 / 250 < resting_ds_dt < 1 / 24.
Proof.
  unfold resting_ds_dt. cbn.
  pose proof (sigmoid_bounds (Q2R 2.0994 * (Q2R 0.0 - Q2R 0.9087))) as Hb.
  set (T := Rtrigo_def.tanh _) in *. clearbody T.
  revert Hb. lit_R. intros Hb.
  assert (Hx : 1 / 83 < (1 + T) / 2 < 1 / 9) by (apply Hb; lra).
  clear Hb. destruct Hx as [Hl Hu].
  split; apply Rmult_lt_reg_r with (27342 * / 10000); try lra;
    replace (((1 + T) / 2 - 0 * / 10) / (27342 * / 10000)
             * (27342 * / 10000))
      with ((1 + T) / 2) by (field; lra); lra.
Qed.

Lemma resting_step (dt : R) (i : Z) :
  Integrator.step_variables i (BuenoOrovio0D.init dt [])
  = Returns (Var.Build 0 1 1 (dt * resting_ds_dt)).
Proof.
  rewrite step_is_sequential. unfold BuenoOrovio0D.init, resting_ds_dt.
  unfold_model. cbn. lit_R. name_tanh. R_decide.
  f_equal. f_equal; field; lra.
Qed.

Lemma resting_derivatives (dt : R) (i : Z) :
  Integrator.dv_dt ops.get_parameters ops.get_variables = Returns 0
  /\ Integrator.dw_dt ops.get_parameters ops.get_variables = Returns 0
  /\ Integrator.du_dt ops.get_parameters [] dt i ops.get_variables
     = Returns 0
  /\ Integrator.ds_dt ops.get_parameters ops.get_variables
     = Returns resting_ds_dt.
Proof.
  unfold resting_ds_dt. unfold_model. cbn. lit_R. name_tanh.
  repeat split; R_decide; f_equal; field; lra.
Qed.
End RealRuns.

(** * The claims *)

(** ** The update performed by [step] *)

Section StepScheme.
Context {F : Type} `{PyFloat F} `{MathLib F}.

(** C1, as the code has it: a call [step(i)] is the sequential update, at
    every instance of the arithmetic.  [v], [w] and [s] advance from the
    start-of-step state, exactly as in textbook forward Euler (and the two
    raise together); [u] advances last, its derivative evaluated at the
    start-of-step [u] and at the values of [v], [w], [s] that this same
    call has just stored. *)
Theorem step_is_sequential_update (i : Z) (self : BuenoOrovio0D.t F) :
  Integrator.step_variables i self
  = Integrator.sequential_step (BuenoOrovio0D.parameters self)
      (BuenoOrovio0D.dt self) (BuenoOrovio0D.stimulations self) i
      (BuenoOrovio0D.variables self)
  /\ Integrator.agree_on_gates
       (Integrator.step_variables i self)
       (Integrator.forward_euler_step (BuenoOrovio0D.parameters self)
          (BuenoOrovio0D.dt self) (BuenoOrovio0D.stimulations self) i
          (BuenoOrovio0D.variables self)).
Proof.
  split.
  - apply step_is_sequential.
  - apply step_gates_as_forward_euler.
Qed.
End StepScheme.

(** ** Totality of the kinetics *)

Section KineticsTotal.
Context {F : Type} `{PyFloat F}.
Local Open Scope py_scope.

Lemma truediv_nonzero (x y : F) :
  is_zero y = false -> truediv x y = Returns (quot x y).
Proof. intros Hy. unfold truediv. rewrite Hy. reflexivity. Qed.

Lemma truediv_zero (x y : F) :
  is_zero y = true -> truediv x y = Raises ZeroDivisionError.
Proof. intros Hy. unfold truediv. rewrite Hy. reflexivity. Qed.

(** C7: when every time constant that a function divides by is nonzero,
    each of the fourteen functions of the kinetics returns, with the value
    of its formula: no division raises.  This holds at every instance of
    the arithmetic in which the literal [2] is not zero, so over the reals
    and on binary64 alike; the five functions that do not divide are total
    as they stand. *)
Theorem kinetics_engine_total
    (u v w s v_inf w_inf J_fi J_so J_si : F)
    (u_o u_u theta_v theta_w theta_v_m theta_o : F)
    (tau_v1_m tau_v2_m tau_w1_m tau_w2_m tau_o1 tau_o2 : F)
    (tau_so1 tau_so2 tau_s1 tau_s2 : F)
    (k_w_m u_w_m k_so u_so k_s u_s w_inf_ : F)
    (tau_v_m tau_v_p tau_w_m tau_w_p tau_s tau_fi tau_o tau_so tau_si
     tau_w_inf : F)
    (tanh : F -> F) :
  is_zero (of_int 2) = false ->
  is_zero tau_v_m = false -> is_zero tau_v_p = false ->
  is_zero tau_w_m = false -> is_zero tau_w_p = false ->
  is_zero tau_s = false -> is_zero tau_fi = false ->
  is_zero tau_o = false -> is_zero tau_so = false ->
  is_zero tau_si = false -> is_zero tau_w_inf = false ->
  ops.calc_rhs J_fi J_so J_si = - J_fi - J_so - J_si
  /\ ops.calc_v v u theta_v v_inf tau_v_m tau_v_p
     = Returns (if u - theta_v <? of_int 0 then quot (v_inf - v) tau_v_m
                else quot (- v) tau_v_p)
  /\ ops.calc_w w u theta_w w_inf tau_w_m tau_w_p
     = Returns (if u - theta_w <? of_int 0 then quot (w_inf - w) tau_w_m
                else quot (- w) tau_w_p)
  /\ ops.calc_s s u tau_s k_s u_s tanh
     = Returns (quot (quot (of_int 1 + tanh (k_s * (u - u_s))) (of_int 2)
                      - s) tau_s)
  /\ ops.calc_Jfi u v theta_v u_u tau_fi
     = Returns (quot (- v * ops.H_gate u theta_v * (u - theta_v)
                      * (u_u - u)) tau_fi)
  /\ ops.calc_Jso u u_o theta_w tau_o tau_so
     = Returns (quot ((u - u_o) * (of_int 1 - ops.H_gate u theta_w)) tau_o
                + quot (ops.H_gate u theta_w) tau_so)
  /\ ops.calc_Jsi u w s theta_w tau_si
     = Returns (quot (- ops.H_gate u theta_w * w * s) tau_si)
  /\ ops.calc_tau_v_m u theta_v_m tau_v1_m tau_v2_m
     = (if u - theta_v_m <? of_int 0 then tau_v1_m else tau_v2_m)
  /\ ops.calc_tau_w_m u tau_w1_m tau_w2_m k_w_m u_w_m tanh
     = Returns (tau_w1_m
                + quot ((tau_w2_m - tau_w1_m)
                        * (of_int 1 + tanh (k_w_m * (u - u_w_m))))
                    (of_int 2))
  /\ ops.calc_tau_so u tau_so1 tau_so2 k_so u_so tanh
     = Returns (tau_so1
                + quot ((tau_so2 - tau_so1)
                        * (of_int 1 + tanh (k_so * (u - u_so))))
                    (of_int 2))
  /\ ops.calc_tau_s u tau_s1 tau_s2 theta_w
     = (if u - theta_w <? of_int 0 then tau_s1 else tau_s2)
  /\ ops.calc_tau_o u tau_o1 tau_o2 theta_o
     = (if u - theta_o <? of_int 0 then tau_o1 else tau_o2)
  /\ ops.calc_v_inf u theta_v_m
     = (if u <? theta_v_m then lit 1.0 else lit 0.0)
  /\ ops.calc_w_inf u theta_o tau_w_inf w_inf_
     = Returns (if u - theta_o <? of_int 0
                then of_int 1 - quot u tau_w_inf
                else w_inf_).
Proof.
  intros H2 Hvm Hvp Hwm Hwp Hs Hfi Ho Hso Hsi Hwinf.
  unfold ops.calc_rhs, ops.calc_v, ops.calc_w, ops.calc_s, ops.calc_Jfi,
    ops.calc_Jso, ops.calc_Jsi, ops.calc_tau_v_m, ops.calc_tau_w_m,
    ops.calc_tau_so, ops.calc_tau_s, ops.calc_tau_o, ops.calc_v_inf,
    ops.calc_w_inf.
  cbv zeta.
  repeat first [ rewrite truediv_nonzero by assumption
               | progress cbn [bind ret outcome_monad] ].
  repeat split;
    try reflexivity;
    match goal with
    | |- context [lt ?a ?b] => destruct (lt a b); reflexivity
    end.
Qed.
End KineticsTotal.

Section RealClaims.
Local Open Scope R_scope.

(** C1 fails as stated: from the depolarised state [(0.5, 1, 1, 0)], with
    the default parameters, [dt = 0.01] and no stimulus, the state that
    [step(0)] leaves is not the forward-Euler state.  The two differ in
    [u]: [J_fi] is evaluated with the [v] the call has already advanced,
    and [J_si] with the advanced [w] and [s]. *)
Lemma step_differs_from_forward_euler :
  Integrator.step_variables 0
    (BuenoOrovio0D.Build (lit 0.01) [] excited ops.get_parameters
       (Var.Build [] [] [] []))
  <> Integrator.forward_euler_step ops.get_parameters (lit 0.01) [] 0
       excited.
Proof.
  rewrite step_is_sequential. unfold_model. unfold excited.
  cbn. lit_R. name_tanh. R_decide.
  intros Heq. injection Heq. intros. lra.
Qed.

(** ** The resting state *)

(** C2, as the code has it: with no stimulus, the default parameters and
    the default initial state [(0, 1, 1, 0)], a call to [step] leaves [u],
    [v] and [w] exactly as they were (their derivatives are [0]), and adds
    [dt * ds/dt] to [s], where [ds/dt = (1 + tanh(k_s*(0 - u_s)))/2 /
    tau_s1] lies between [0.004] and [0.042]: the resting state is a fixed
    point of the equations of [u], [v], [w], not of the equation of [s]. *)
Theorem resting_state_step (dt : R) (i : Z) :
  let rest := ops.get_variables in
  Integrator.step_variables i (BuenoOrovio0D.init dt [])
  = Returns (Var.Build (Var.u rest) (Var.v rest) (Var.w rest)
               (Var.s rest + dt * resting_ds_dt))
  /\ Integrator.du_dt ops.get_parameters [] dt i rest = Returns 0
  /\ Integrator.dv_dt ops.get_parameters rest = Returns 0
  /\ Integrator.dw_dt ops.get_parameters rest = Returns 0
  /\ Integrator.ds_dt ops.get_parameters rest = Returns resting_ds_dt
  /\ 1 / 250 < resting_ds_dt < 1 / 24.
Proof.
  cbn zeta.
  destruct (resting_derivatives dt i) as (Hv & Hw & Hu & Hs).
  split; [| repeat split; try assumption; apply resting_ds_dt_bounds].
  rewrite resting_step. cbn. lit_R. f_equal. f_equal; field.
Qed.

(** C2 fails as stated: at the resting state [ds/dt] is above [0.004], and
    one step with [dt = 0.01] and no stimulus moves [s] by more than
    [4e-5], far from any floating-point tolerance. *)
Lemma resting_state_s_moves :
  exists x',
    Integrator.step_variables 0 (BuenoOrovio0D.init (lit 0.01) [])
    = Returns x'
    /\ Integrator.ds_dt ops.get_parameters ops.get_variables
       = Returns resting_ds_dt
    /\ 1 / 250 < resting_ds_dt
    /\ 1 / 25000 < Var.s x' - Var.s ops.get_variables.
Proof.
  eexists. split; [apply resting_step |].
  split; [apply (resting_derivatives 0 0) |].
  pose proof resting_ds_dt_bounds as [Hl _].
  split; [exact Hl |].
  cbn. lit_R. lra.
Qed.

(** ** The number of steps of [run] *)

Section RunCount.
Context {F : Type} `{PyFloat F} `{MathLib F}.

(** C3, as the code has it, at every instance of the arithmetic: [run] on
    a freshly constructed model evaluates [int(round(t_max/dt))] as the
    arithmetic does; when this raises (a zero [dt], a quotient that is not
    finite) [run] raises before any step.  Otherwise, with [n] the
    integer obtained, it calls [step] with the indices of [range(n)], that
    is [0, 1, ..., n-1] in this order and none when [n <= 0], up to the
    first call that raises, and appends the state left after each step
    that returned: the four history lists hold these post-step states,
    their common length is the number of completed steps, at most
    [max(n, 0)], and it is [max(n, 0)] exactly when [run] returns.  In
    exact arithmetic, with a nonzero [dt], [n] is [t_max/dt] rounded to
    the nearest integer (a tie to the even one) and [run] always returns,
    so the length is [max(n, 0)], which is [n] when [dt > 0] and
    [t_max >= 0].  For [t_max = 1.0] and [dt = 0.3] the count is [3] in
    exact arithmetic and on binary64; for [t_max = 0.35] and [dt = 0.1] it
    is [4] in exact arithmetic and [3] on binary64, where the quotient is
    [3.4999999999999996]. *)
Theorem run_step_count (t_max dt : F)
    (stimulations : list (Stimulation.t F)) :
  let self := BuenoOrovio0D.init dt stimulations in
  let r := BuenoOrovio0D.run t_max self in
  let h := BuenoOrovio0D.history (fst r) in
  Integrator.n_steps t_max dt
  = match truediv t_max dt with
    | Returns q => py_round q
    | Raises e => Raises e
    end
  /\ match Integrator.n_steps t_max dt with
     | Raises e => r = (self, Raises e)
     | Returns n =>
         let xs := Integrator.post_states (range n) self in
         range n = map Z.of_nat (seq 0 (Z.to_nat n))
         /\ h = Integrator.columns xs
         /\ length (Var.u h) = length xs /\ length (Var.v h) = length xs
         /\ length (Var.w h) = length xs /\ length (Var.s h) = length xs
         /\ (length xs <= Z.to_nat n)%nat
         /\ (snd r = Returns tt <-> length xs = Z.to_nat n)
         /\ (snd r = Returns tt ->
             BuenoOrovio0D.variables (fst r)
             = last xs (BuenoOrovio0D.variables self))
         /\ (snd r = Returns tt -> (0 <= n)%Z -> Z.of_nat (length xs) = n)
     end
  /\ (forall (t_max' dt' : R) (stims : list (Stimulation.t R)),
        dt' <> 0 ->
        let n := round_half_even (t_max' / dt') in
        let r' := BuenoOrovio0D.run t_max' (BuenoOrovio0D.init dt' stims) in
        let h' := BuenoOrovio0D.history (fst r') in
        Integrator.n_steps t_max' dt' = Returns n
        /\ snd r' = Returns tt
        /\ length (Var.u h') = Z.to_nat n /\ length (Var.v h') = Z.to_nat n
        /\ length (Var.w h') = Z.to_nat n /\ length (Var.s h') = Z.to_nat n
        /\ (0 < dt' -> 0 <= t_max' -> Z.of_nat (length (Var.u h')) = n))
  /\ Integrator.n_steps (F := R) (lit 1.0) (lit 0.3) = Returns 3%Z
  /\ Integrator.n_steps (F := float) (lit 1.0) (lit 0.3) = Returns 3%Z
  /\ Integrator.n_steps (F := R) (lit 0.35) (lit 0.1) = Returns 4%Z
  /\ Integrator.n_steps (F := float) (lit 0.35) (lit 0.1) = Returns 3%Z
  /\ truediv (F := float) (lit 0.35) (lit 0.1)
     = Returns 0x1.bffffffffffffp+1%float.
Proof.
  cbn zeta. split.
  { unfold Integrator.n_steps.
    destruct (truediv t_max dt); reflexivity. }
  split.
  { rewrite run_unfold.
    change (BuenoOrovio0D.dt (BuenoOrovio0D.init dt stimulations)) with dt.
    destruct (Integrator.n_steps t_max dt) as [n | e]; [| reflexivity].
    set (self := BuenoOrovio0D.init dt stimulations).
    pose proof (for_each_spec (range n) self) as HS. cbn zeta in HS.
    destruct HS as (Hh & _ & _ & _ & Hr & Hv).
    pose proof (post_states_length_le (range n) self) as Hle.
    rewrite range_length in Hle, Hr.
    assert (Hcol : BuenoOrovio0D.history
                     (fst (BuenoOrovio0D.for_each (range n)
                             Integrator.run_body self))
                   = Integrator.columns
                       (Integrator.post_states (range n) self)).
    { rewrite Hh. apply extend_empty. }
    rewrite Hcol.
    destruct (columns_lengths (Integrator.post_states (range n) self))
      as (Lu & Lv & Lw & Ls).
    split; [reflexivity |]. split; [reflexivity |].
    do 4 (split; [assumption |]).
    split; [exact Hle |]. split; [exact Hr |]. split; [exact Hv |].
    intros Hret Hn. rewrite (proj1 Hr Hret). apply Z2Nat.id, Hn. }
  split.
  { intros t_max' dt' stims Hdt. cbn zeta.
    destruct (run_defaults t_max' dt' stims Hdt) as (Hr & Hh & _ & Hl).
    rewrite Hh. cbn [Integrator.columns Var.u Var.v Var.w Var.s].
    rewrite !length_map.
    split; [apply n_steps_R, Hdt |]. split; [exact Hr |].
    do 4 (split; [exact Hl |]).
    intros Hpos Ht. rewrite Hl. apply Z2Nat.id.
    unfold round_half_even.
    assert (Hq : (0 <= t_max' / dt')%R).
    { apply Rmult_le_pos; [exact Ht |].
      left. apply Rinv_0_lt_compat, Hpos. }
    assert (Hf : (0 <= Zfloor (t_max' / dt'))%Z) by (apply Zfloor_lub, Hq).
    destruct (Rlt_dec _ _); [exact Hf |].
    destruct (Rlt_dec _ _); [lia |].
    destruct (Z.even _); lia. }
  split.
  { rewrite n_steps_R by (cbn; lit_R; lra). f_equal.
    apply round_half_even_near. cbn. lit_R. lra. }
  split; [vm_compute; reflexivity |].
  split.
  { rewrite n_steps_R by (cbn; lit_R; lra). f_equal.
    unfold round_half_even.
    replace (lit 0.35 / lit 0.1)%R with (IZR 3 + 1 / 2)%R
      by (cbn; lit_R; field).
    rewrite (Zfloor_eq 3) by lra.
    destruct (Rlt_dec _ _) as [Hc | _]; [lra |].
    destruct (Rlt_dec _ _) as [Hc | _]; [lra |]. reflexivity. }
  split; vm_compute; reflexivity.
Qed.
End RunCount.

Lemma run_step_count_witness :
  let r :=
    BuenoOrovio0D.run (lit 1.0) (BuenoOrovio0D.init (lit 0.3) [pulse]) in
  lit 0.3 <> 0
  /\ snd r = Returns tt
  /\ length (Var.u (BuenoOrovio0D.history (fst r))) = 3%nat.
Proof.
  cbn zeta.
  assert (Hdt : lit 0.3 <> 0) by (cbn; lit_R; lra).
  pose proof (run_step_count (F := R) 0 1 []) as W.
  cbn zeta in W. destruct W as (_ & _ & W & _).
  destruct (W (lit 1.0) (lit 0.3) [pulse] Hdt) as (_ & Hr & Hu & _).
  split; [exact Hdt |].
  split; [exact Hr |].
  rewrite Hu.
  replace (round_half_even (lit 1.0 / lit 0.3)) with 3%Z; [reflexivity |].
  symmetry. apply round_half_even_near. cbn. lit_R. lra.
Defined.

(** C3 fails as stated for a negative [t_max]: with [dt = 0.3],
    [run(-1.0)] computes [n_steps = -3], calls [step] not at all and
    returns with empty history lists, whose length [0] is not [n_steps]. *)
Lemma run_negative_t_max :
  let r :=
    BuenoOrovio0D.run (- lit 1.0)%py (BuenoOrovio0D.init (lit 0.3) []) in
  Integrator.n_steps (F := R) (- lit 1.0)%py (lit 0.3) = Returns (-3)%Z
  /\ snd r = Returns tt
  /\ length (Var.u (BuenoOrovio0D.history (fst r))) = 0%nat
  /\ Z.of_nat (length (Var.u (BuenoOrovio0D.history (fst r)))) <> (-3)%Z.
Proof.
  cbn zeta.
  assert (Hn : round_half_even ((- lit 1.0)%py / lit 0.3) = (-3)%Z).
  { apply round_half_even_near. cbn. lit_R. lra. }
  assert (Hdt : lit 0.3 <> 0) by (cbn; lit_R; lra).
  destruct (run_defaults (- lit 1.0)%py (lit 0.3) [] Hdt)
    as (Hr & Hh & _ & Hl).
  rewrite Hh. cbn [Integrator.columns Var.u]. rewrite length_map, Hl.
  rewrite n_steps_R by assumption. rewrite Hn.
  repeat split; try assumption; try reflexivity. cbn. lia.
Qed.

(** ** The stimulus window *)




(** ** Threshold conventions *)

(** On binary64 [x - x] is [+0.0] for a zero or finite [x], and no float
    is below itself. *)
Lemma sub_diag_binary64 (x : float) :
  Binary64.finite x = true -> Prim2SF (PrimFloat.sub x x) = S754_zero false.
Proof.
  unfold Binary64.finite. rewrite sub_spec. unfold SF64sub.
  destruct (Prim2SF x) as [s | s | | s m e]; try discriminate; intros _.
  - destruct s; reflexivity.
  - unfold SFsub. rewrite Z.sub_diag. reflexivity.
Qed.

Lemma SFcompare_diag (x : spec_float) :
  SFcompare x x = None \/ SFcompare x x = Some Eq.
Proof.
  destruct x as [s | s | | s m e]; cbn.
  - now right.
  - destruct s; now right.
  - now left.
  - destruct s; rewrite Z.compare_refl, Pos.compare_cont_refl; now right.
Qed.

Lemma ltb_irrefl_binary64 (x : float) : PrimFloat.ltb x x = false.
Proof.
  rewrite ltb_spec. unfold SFltb.
  destruct (SFcompare_diag (Prim2SF x)) as [-> | ->]; reflexivity.
Qed.

Lemma H_gate_boundary_binary64 (theta : float) :
  Binary64.finite theta = true -> ops.H_gate theta theta = lit 1.0.
Proof.
  intros Hf. unfold ops.H_gate.
  cbn [le sub of_int Binary64.float_PyFloat].
  rewrite leb_spec, (sub_diag_binary64 theta Hf).
  reflexivity.
Qed.



(** ** The steady state of [w] *)

(** C6: for a nonzero [tau_w_inf], [calc_w_inf] is [1 - u/tau_w_inf] when
    [u < theta_o], [tau_w_inf] dividing [u] as it stands, and [w_inf_] when
    [u >= theta_o].  On binary64, with the default parameters, it is [1.0]
    at [u = 0] and [w_inf_ = 0.94] at [u = theta_o]. *)
Theorem calc_w_inf_branches (u theta_o tau_w_inf w_inf_ : R) :
  tau_w_inf <> 0 ->
  (u < theta_o ->
   ops.calc_w_inf u theta_o tau_w_inf w_inf_ = Returns (1 - u / tau_w_inf))
  /\ (theta_o <= u ->
      ops.calc_w_inf u theta_o tau_w_inf w_inf_ = Returns w_inf_)
  /\ ops.calc_w_inf (F := float) (lit 0.0) (lit 0.006) (lit 0.07)
       (lit 0.94)
     = Returns (lit 1.0)
  /\ ops.calc_w_inf (F := float) (lit 0.006) (lit 0.006) (lit 0.07)
       (lit 0.94)
     = Returns (lit 0.94).
Proof.
  intros Htau. rewrite calc_w_inf_R by assumption.
  split; [| split; [| split; vm_compute; reflexivity]];
    intros Hu; destruct (Rlt_dec (u - theta_o) 0);
    try reflexivity; lra.
Qed.

Lemma calc_w_inf_branches_witness :
  lit 0.07 <> 0
  /\ ops.calc_w_inf (F := R) (lit 0.0) (lit 0.006) (lit 0.07) (lit 0.94)
     = Returns (1 - lit 0.0 / lit 0.07)
  /\ ops.calc_w_inf (F := R) (lit 0.5) (lit 0.006) (lit 0.07) (lit 0.94)
     = Returns (lit 0.94).
Proof.
  assert (Htau : lit 0.07 <> 0) by (cbn; lit_R; lra).
  split; [exact Htau |]. split.
  - apply (proj1 (calc_w_inf_branches (lit 0.0) (lit 0.006) (lit 0.07)
                    (lit 0.94) Htau)).
    cbn; lit_R; lra.
  - apply (proj1 (proj2 (calc_w_inf_branches (lit 0.5) (lit 0.006)
                           (lit 0.07) (lit 0.94) Htau))).
    cbn; lit_R; lra.
Defined.

(** On binary64 too the literal [2] and the time constants of the default
    parameter set are not zero. *)
Lemma defaults_nonzero_binary64 :
  let p := ops.get_parameters (F := float) in
  is_zero (F := float) (of_int 2) = false
  /\ forallb (fun tau => negb (is_zero tau))
       [Par.tau_v1_m p; Par.tau_v2_m p; Par.tau_v_p p; Par.tau_w1_m p;
        Par.tau_w2_m p; Par.tau_w_p p; Par.tau_fi p; Par.tau_o1 p;
        Par.tau_o2 p; Par.tau_so1 p; Par.tau_so2 p; Par.tau_s1 p;
        Par.tau_s2 p; Par.tau_si p; Par.tau_w_inf p]
     = true.
Proof. split; vm_compute; reflexivity. Qed.

(** The precondition of C7 holds of the default parameter set. *)
Lemma kinetics_engine_total_witness :
  let p := ops.get_parameters (F := R) in
  (is_zero (F := R) (of_int 2) = false
   /\ is_zero (Par.tau_v1_m p) = false /\ is_zero (Par.tau_v_p p) = false
   /\ is_zero (Par.tau_w1_m p) = false /\ is_zero (Par.tau_w_p p) = false
   /\ is_zero (Par.tau_s1 p) = false /\ is_zero (Par.tau_fi p) = false
   /\ is_zero (Par.tau_o1 p) = false /\ is_zero (Par.tau_so1 p) = false
   /\ is_zero (Par.tau_si p) = false /\ is_zero (Par.tau_w_inf p) = false)
  /\ ops.calc_v 1 0 (Par.theta_v p) 1 (Par.tau_v1_m p) (Par.tau_v_p p)
     = Returns (if Rlt_dec (0 - Par.theta_v p) 0
                then (1 - 1) / Par.tau_v1_m p
                else - (1) / Par.tau_v_p p)
  /\ ops.calc_s 0 0 (Par.tau_s1 p) (Par.k_s p) (Par.u_s p) Rtrigo_def.tanh
     = Returns (((1 + Rtrigo_def.tanh (Par.k_s p * (0 - Par.u_s p))) / 2
                 - 0) / Par.tau_s1 p).
Proof.
  cbn zeta. set (p := ops.get_parameters (F := R)).
  assert (Hp : is_zero (F := R) (of_int 2) = false
               /\ is_zero (Par.tau_v1_m p) = false
               /\ is_zero (Par.tau_v_p p) = false
               /\ is_zero (Par.tau_w1_m p) = false
               /\ is_zero (Par.tau_w_p p) = false
               /\ is_zero (Par.tau_s1 p) = false
               /\ is_zero (Par.tau_fi p) = false
               /\ is_zero (Par.tau_o1 p) = false
               /\ is_zero (Par.tau_so1 p) = false
               /\ is_zero (Par.tau_si p) = false
               /\ is_zero (Par.tau_w_inf p) = false).
  { unfold p. cbn. lit_R. repeat split; R_decide; reflexivity. }
  split; [exact Hp |].
  destruct Hp as (H0 & H1 & H2 & H3 & H4 & H5 & H6 & H7 & H8 & H9 & H10).
  pose proof (kinetics_engine_total
                0 1 1 0 1 1 0 0 0
                (Par.u_o p) (Par.u_u p) (Par.theta_v p) (Par.theta_w p)
                (Par.theta_v_m p) (Par.theta_o p)
                (Par.tau_v1_m p) (Par.tau_v2_m p) (Par.tau_w1_m p)
                (Par.tau_w2_m p) (Par.tau_o1 p) (Par.tau_o2 p)
                (Par.tau_so1 p) (Par.tau_so2 p) (Par.tau_s1 p)
                (Par.tau_s2 p)
                (Par.k_w_m p) (Par.u_w_m p) (Par.k_so p) (Par.u_so p)
                (Par.k_s p) (Par.u_s p) (Par.w_inf_ p)
                (Par.tau_v1_m p) (Par.tau_v_p p) (Par.tau_w1_m p)
                (Par.tau_w_p p) (Par.tau_s1 p) (Par.tau_fi p)
                (Par.tau_o1 p) (Par.tau_so1 p) (Par.tau_si p)
                (Par.tau_w_inf p) Rtrigo_def.tanh
                H0 H1 H2 H3 H4 H5 H6 H7 H8 H9 H10)
    as (_ & Hv & _ & Hs & _).
  split; [| exact Hs].
  rewrite Hv. cbn. destruct (Rlt_dec _ _); reflexivity.
Defined.

(** ** Stimuli add up *)




(** ** Entries with an empty window *)

(** C10: an entry with [duration <= 0] gives [stim(t) = 0] at every [t];
    the stimulus of a protocol is the same with or without it, wherever it
    stands in the list, and so is the state a call to [step] leaves.  On
    binary64 the entry [(0.1, 0.0, 5.0)] gives [0.0] at its own
    [t_start]. *)
Theorem stim_empty_window (self : Stimulation.t R) (t : R)
    (before after : list (Stimulation.t R)) (model : BuenoOrovio0D.t R)
    (i : Z) :
  let model_with stims :=
    BuenoOrovio0D.Build (BuenoOrovio0D.dt model) stims
      (BuenoOrovio0D.variables model) (BuenoOrovio0D.parameters model)
      (BuenoOrovio0D.history model) in
  Stimulation.duration self <= 0 ->
  Stimulation.stim self t = 0
  /\ Integrator.stimulus (before ++ self :: after) t
     = Integrator.stimulus (before ++ after) t
  /\ Integrator.step_variables i (model_with (before ++ self :: after))
     = Integrator.step_variables i (model_with (before ++ after))
  /\ Stimulation.stim (F := float) null_pulse (lit 0.1) = lit 0.0.
Proof.
  cbn zeta. intros Hd.
  assert (Hs : forall t', Stimulation.stim self t' = 0).
  { intros t'. apply (proj2 (stim_R self t')). lra. }
  assert (Hsum : forall t',
             Integrator.stimulus (before ++ self :: after) t'
             = Integrator.stimulus (before ++ after) t').
  { intros t'. rewrite !stimulus_app, stimulus_cons, Hs. lra. }
  split; [apply Hs |].
  split; [apply Hsum |].
  split; [| vm_compute; reflexivity].
  rewrite !step_is_sequential.
  cbn [BuenoOrovio0D.parameters BuenoOrovio0D.dt
       BuenoOrovio0D.stimulations BuenoOrovio0D.variables].
  rewrite sequential_step_stimulus.
  rewrite (sequential_step_stimulus _ _ (before ++ after)).
  now rewrite Hsum.
Qed.

Lemma stim_empty_window_witness :
  Stimulation.duration (null_pulse (F := R)) <= 0
  /\ Stimulation.stim (F := R) null_pulse (lit 0.1) = 0
  /\ Integrator.stimulus [pulse (F := R); null_pulse] (lit 0.1)
     = Integrator.stimulus [pulse (F := R)] (lit 0.1).
Proof.
  assert (Hd : Stimulation.duration (null_pulse (F := R)) <= 0)
    by (cbn; lit_R; lra).
  split; [exact Hd |].
  pose proof (stim_empty_window null_pulse (lit 0.1) [pulse] []
                (BuenoOrovio0D.init (lit 0.01) [pulse; null_pulse]) 10 Hd)
    as (Hs & Hl & _).
  split; [exact Hs | exact Hl].
Defined.
End RealClaims.

(** ** The history *)

Section HistoryInvariant.
Context {F : Type} `{PyFloat F} `{MathLib F}.

(** C9: after any sequence of [run] calls on a freshly constructed model,
    at every instance of the arithmetic, the history is, column by column,
    the list of the states left by the completed steps, in order: the four
    lists have the length of that list, entry [k] of each is the value of
    its variable right after the [(k+1)]-th completed step, and further
    calls only append to them. *)
Theorem history_records_completed_steps (dt : F)
    (stimulations : list (Stimulation.t F)) (ts ts' : list F) (k : nat) :
  let fresh := BuenoOrovio0D.init dt stimulations in
  let self := Integrator.run_all ts fresh in
  let xs := Integrator.run_all_states ts fresh in
  let h := BuenoOrovio0D.history self in
  h = Integrator.columns xs
  /\ length (Var.u h) = length xs /\ length (Var.v h) = length xs
  /\ length (Var.w h) = length xs /\ length (Var.s h) = length xs
  /\ nth_error (Var.u h) k = option_map Var.u (nth_error xs k)
  /\ nth_error (Var.v h) k = option_map Var.v (nth_error xs k)
  /\ nth_error (Var.w h) k = option_map Var.w (nth_error xs k)
  /\ nth_error (Var.s h) k = option_map Var.s (nth_error xs k)
  /\ BuenoOrovio0D.history (Integrator.run_all (ts ++ ts') fresh)
     = Integrator.extend h
         (Integrator.columns (Integrator.run_all_states ts' self)).
Proof.
  cbn zeta.
  assert (Hh : BuenoOrovio0D.history
                 (Integrator.run_all ts (BuenoOrovio0D.init dt stimulations))
               = Integrator.columns
                   (Integrator.run_all_states ts
                      (BuenoOrovio0D.init dt stimulations))).
  { rewrite run_all_history. apply extend_empty. }
  rewrite Hh.
  destruct (columns_lengths
              (Integrator.run_all_states ts
                 (BuenoOrovio0D.init dt stimulations)))
    as (Lu & Lv & Lw & Ls).
  split; [reflexivity |].
  do 4 (split; [assumption |]).
  do 4 (split; [cbn; apply nth_error_map |]).
  rewrite run_all_app, run_all_history, Hh. reflexivity.
Qed.
End HistoryInvariant.

(** * Further properties of the integrator and of the kinetics *)

(** * Further properties of the integrator and of the kinetics *)

(** ** What [step] and [run] write, and what a failing call leaves *)

Section Failure.
Context {F : Type} `{PyFloat F} `{MathLib F}.
Local Open Scope py_scope.

Lemma step_stages (i : Z) (self : BuenoOrovio0D.t F) :
  BuenoOrovio0D.step i self = step_by_stage i self.
Proof.
  destruct self as [dt stims [u v w s] p h].
  unfold step_by_stage, with_variables, BuenoOrovio0D.step,
    Integrator.dv_dt, Integrator.dw_dt, Integrator.ds_dt, Integrator.du_dt,
    Integrator.reaction, Integrator.stimulus.
  cbn. case_calls; reflexivity.
Qed.

(** With a zero [tau_fi] the quotient of [calc_Jfi], the first the update
    of [u] evaluates, raises. *)
Lemma du_dt_zero_tau_fi (p : Par.dict F) (stims : list (Stimulation.t F))
    (dt : F) (i : Z) (x : Var.dict F) :
  is_zero (Par.tau_fi p) = true ->
  Integrator.du_dt p stims dt i x = Raises ZeroDivisionError.
Proof.
  intros Hz. unfold Integrator.du_dt, Integrator.reaction, ops.calc_Jfi.
  cbv zeta. unfold truediv at 1. rewrite Hz. reflexivity.
Qed.

(** X1: [step] assigns to [self.variables] only, also when it raises: [dt],
    the protocol, the parameters and the history come out as they went in.
    When it raises, [u] has not been assigned: the assignment to [u] is
    the last statement. *)
Theorem step_writes_variables_only (i : Z) (self : BuenoOrovio0D.t F) :
  exists x,
    fst (BuenoOrovio0D.step i self) = with_variables x self
    /\ (forall e, snd (BuenoOrovio0D.step i self) = Raises e ->
        Var.u x = Var.u (BuenoOrovio0D.variables self)).
Proof.
  rewrite step_stages. unfold step_by_stage. cbv zeta.
  destruct (Integrator.dv_dt _ _) as [dv | e1].
  2:{ exists (BuenoOrovio0D.variables self). split; [| reflexivity].
      destruct self; reflexivity. }
  destruct (Integrator.dw_dt _ _) as [dw | e2];
    [| eexists; split; [reflexivity | reflexivity]].
  destruct (Integrator.ds_dt _ _) as [ds | e3];
    [| eexists; split; [reflexivity | reflexivity]].
  destruct (Integrator.du_dt _ _ _ _ _) as [du | e4];
    eexists; (split; [reflexivity |]); cbn [snd]; intros e He;
    [discriminate | reflexivity].
Qed.

(** X2: A failing [step] is not rolled back.  When [tau_fi] is zero and the
    gate equations can be evaluated, [step] raises [ZeroDivisionError] at
    [calc_Jfi], after it has stored the advanced [v], [w] and [s]: the
    object is left with the new gates and the old [u]. *)
Theorem step_failure_keeps_gate_updates (i : Z) (self : BuenoOrovio0D.t F)
    (dv dw ds : F) :
  is_zero (Par.tau_fi (BuenoOrovio0D.parameters self)) = true ->
  Integrator.dv_dt (BuenoOrovio0D.parameters self)
    (BuenoOrovio0D.variables self) = Returns dv ->
  Integrator.dw_dt (BuenoOrovio0D.parameters self)
    (BuenoOrovio0D.variables self) = Returns dw ->
  Integrator.ds_dt (BuenoOrovio0D.parameters self)
    (BuenoOrovio0D.variables self) = Returns ds ->
  BuenoOrovio0D.step i self
  = (with_variables
       (Var.Build
          (Var.u (BuenoOrovio0D.variables self))
          (Var.v (BuenoOrovio0D.variables self) + BuenoOrovio0D.dt self * dv)
          (Var.w (BuenoOrovio0D.variables self) + BuenoOrovio0D.dt self * dw)
          (Var.s (BuenoOrovio0D.variables self) + BuenoOrovio0D.dt self * ds))
       self,
     Raises ZeroDivisionError).
Proof.
  intros Hz Hv Hw Hs.
  rewrite step_stages. unfold step_by_stage.
  rewrite Hv, Hw, Hs. cbv zeta.
  rewrite du_dt_zero_tau_fi by exact Hz.
  reflexivity.
Qed.

(** X3: [run] does not catch: when the first step raises, [run] raises the
    same exception and hands back the object as that step left it, with
    nothing appended to the history. *)
Theorem run_stops_at_failing_step (t_max : F) (self self' : BuenoOrovio0D.t F)
    (n : Z) (e : exn) :
  Integrator.n_steps t_max (BuenoOrovio0D.dt self) = Returns n ->
  (0 < n)%Z ->
  BuenoOrovio0D.step 0 self = (self', Raises e) ->
  BuenoOrovio0D.run t_max self = (self', Raises e)
  /\ BuenoOrovio0D.history self' = BuenoOrovio0D.history self.
Proof.
  intros Hn Hpos Hstep. rewrite run_unfold, Hn.
  unfold range. destruct (Z.to_nat n) as [| k] eqn:Hk; [lia |].
  cbn [seq map]. rewrite for_each_cons, run_body_unfold.
  change (Z.of_nat 0) with 0%Z. rewrite Hstep. split; [reflexivity |].
  pose proof (step_frame 0 self) as (_ & _ & _ & Hh).
  rewrite Hstep in Hh. exact Hh.
Qed.

(** X4: [run] on a model whose [dt] is zero raises [ZeroDivisionError] from
    [t_max/self.dt], before any step: the object is untouched. *)
Theorem run_zero_dt (t_max : F) (self : BuenoOrovio0D.t F) :
  is_zero (BuenoOrovio0D.dt self) = true ->
  BuenoOrovio0D.run t_max self = (self, Raises ZeroDivisionError).
Proof.
  intros Hz. rewrite run_unfold. unfold Integrator.n_steps, truediv.
  rewrite Hz. reflexivity.
Qed.
End Failure.

(** ** The three currents *)

Section Currents.
Local Open Scope R_scope.

(** X11: The currents are piecewise in [u].  Below its threshold [J_fi] is
    exactly 0, whatever [v]; below [theta_w], [J_si] is exactly 0 and
    [J_so] is the linear leak [(u - u_o)/tau_o]; at and above [theta_w],
    [J_so] is the constant [1/tau_so], whatever [u], [u_o] and [tau_o]. *)
Theorem currents_are_piecewise
    (u v w s u_o u_u theta_v theta_w tau_fi tau_o tau_so tau_si : R) :
  tau_fi <> 0 -> tau_o <> 0 -> tau_so <> 0 -> tau_si <> 0 ->
  (u < theta_v -> ops.calc_Jfi u v theta_v u_u tau_fi = Returns 0)
  /\ (theta_v <= u ->
      ops.calc_Jfi u v theta_v u_u tau_fi
      = Returns (- v * (u - theta_v) * (u_u - u) / tau_fi))
  /\ (u < theta_w ->
      ops.calc_Jsi u w s theta_w tau_si = Returns 0
      /\ ops.calc_Jso u u_o theta_w tau_o tau_so
         = Returns ((u - u_o) / tau_o))
  /\ (theta_w <= u ->
      ops.calc_Jsi u w s theta_w tau_si = Returns (- w * s / tau_si)
      /\ ops.calc_Jso u u_o theta_w tau_o tau_so = Returns (1 / tau_so)).
Proof.
  intros Hfi Ho Hso Hsi.
  rewrite calc_Jfi_R, calc_Jsi_R, calc_Jso_R by assumption.
  rewrite !H_gate_R.
  split; [| split; [| split]]; intros Hu; R_cases; try lra;
    try split; f_equal; field; auto.
Qed.

(** X12: The direction of the currents.  With positive time constants, gates
    that are not negative and [u_o <= u <= u_u], the fast inward and the
    slow inward current are never positive and the slow outward current
    is never negative: [J_fi <= 0], [J_si <= 0], [J_so >= 0]. *)
Theorem currents_have_fixed_sign
    (u v w s u_o u_u theta_v theta_w tau_fi tau_o tau_so tau_si : R) :
  0 < tau_fi -> 0 < tau_o -> 0 < tau_so -> 0 < tau_si ->
  0 <= v -> 0 <= w -> 0 <= s -> u_o <= u <= u_u ->
  exists J_fi J_so J_si,
    ops.calc_Jfi u v theta_v u_u tau_fi = Returns J_fi
    /\ ops.calc_Jso u u_o theta_w tau_o tau_so = Returns J_so
    /\ ops.calc_Jsi u w s theta_w tau_si = Returns J_si
    /\ J_fi <= 0 /\ 0 <= J_so /\ J_si <= 0.
Proof.
  intros Hfi Ho Hso Hsi Hv Hw Hs [Hlo Hhi].
  rewrite calc_Jfi_R, calc_Jsi_R, calc_Jso_R by lra.
  rewrite !H_gate_R.
  do 3 eexists. do 3 (split; [reflexivity |]).
  assert (Hifi : 0 < / tau_fi) by now apply Rinv_0_lt_compat.
  assert (Hio : 0 < / tau_o) by now apply Rinv_0_lt_compat.
  assert (Hiso : 0 < / tau_so) by now apply Rinv_0_lt_compat.
  assert (Hisi : 0 < / tau_si) by now apply Rinv_0_lt_compat.
  unfold Rdiv. repeat split; R_cases.
  - assert (0 <= v * (u - theta_v) * (u_u - u)).
    { apply Rmult_le_pos; [apply Rmult_le_pos |]; lra. }
    nra.
  - nra.
  - nra.
  - assert (0 <= (u - u_o) * / tau_o) by (apply Rmult_le_pos; lra). lra.
  - assert (0 <= w * s) by (apply Rmult_le_pos; lra). nra.
  - nra.
Qed.
End Currents.

(** ** Below the thresholds *)

Section SubThreshold.
Local Open Scope R_scope.

(** Below both thresholds the reaction term does not read the gates. *)
Lemma reaction_below_thresholds (p : Par.dict R) (u v w s v' w' s' : R) :
  u < Par.theta_v p -> u < Par.theta_w p ->
  Integrator.reaction p (Var.Build u v' w' s')
  = Integrator.reaction p (Var.Build u v w s).
Proof.
  intros Hv Hw.
  unfold Integrator.reaction, ops.calc_Jfi, ops.calc_Jso, ops.calc_Jsi.
  cbv zeta. cbn [Var.u Var.v Var.w Var.s].
  rewrite !H_gate_R.
  destruct (Rle_dec 0 (u - Par.theta_v p)) as [Hc | _]; [lra |].
  destruct (Rle_dec 0 (u - Par.theta_w p)) as [Hc | _]; [lra |].
  rewrite calc_tau_so_R. cbn [bind outcome_monad ret].
  unfold truediv. cbn [is_zero R_PyFloat quot add sub mul neg].
  repeat match goal with
  | |- context [Req_dec_T ?a 0] => destruct (Req_dec_T a 0)
  end; cbn [bind outcome_monad ret]; try reflexivity.
  f_equal. unfold ops.calc_rhs. cbn [add sub mul neg R_PyFloat].
  unfold Rdiv. ring.
Qed.

(** X13: Below both thresholds ([u < theta_v] and [u < theta_w]) the order of
    the assignments in [step] does not matter: [J_fi] and [J_si] are
    switched off, so the update of [u] does not read the gates that the
    same call has just stored, and [step] leaves exactly the state of the
    textbook forward-Euler update (and raises exactly when it does). *)
Theorem subthreshold_step_is_forward_euler (i : Z)
    (self : BuenoOrovio0D.t R) :
  Var.u (BuenoOrovio0D.variables self)
    < Par.theta_v (BuenoOrovio0D.parameters self) ->
  Var.u (BuenoOrovio0D.variables self)
    < Par.theta_w (BuenoOrovio0D.parameters self) ->
  Integrator.step_variables i self
  = Integrator.forward_euler_step (BuenoOrovio0D.parameters self)
      (BuenoOrovio0D.dt self) (BuenoOrovio0D.stimulations self) i
      (BuenoOrovio0D.variables self).
Proof.
  intros Hv Hw. rewrite step_is_sequential.
  destruct self as [dt stims [u v w s] p h].
  cbn [BuenoOrovio0D.parameters BuenoOrovio0D.dt BuenoOrovio0D.stimulations
       BuenoOrovio0D.variables Var.u] in *.
  unfold Integrator.sequential_step, Integrator.forward_euler_step.
  destruct (Integrator.dv_dt p _) as [dv | e]; cbn [bind outcome_monad ret];
    [| reflexivity].
  destruct (Integrator.dw_dt p _) as [dw | e]; cbn [bind outcome_monad ret];
    [| reflexivity].
  destruct (Integrator.ds_dt p _) as [ds | e]; cbn [bind outcome_monad ret];
    [| reflexivity].
  cbv zeta. cbn [Var.u Var.v Var.w Var.s]. unfold Integrator.du_dt.
  rewrite (reaction_below_thresholds p u v w s) by assumption.
  destruct (Integrator.reaction p _) as [r | e];
    cbn [bind outcome_monad ret]; [| reflexivity].
  destruct (Integrator.stimulus_values stims dt i) as [values | e];
    reflexivity.
Qed.
End SubThreshold.

(** ** Consecutive calls of [run] *)

Section Composition.
Context {F : Type} `{PyFloat F} `{MathLib F}.

(** Without stimulation entries the step index is not read. *)
Lemma step_index_irrelevant (i j : Z) (self : BuenoOrovio0D.t F) :
  BuenoOrovio0D.stimulations self = [] ->
  BuenoOrovio0D.step i self = BuenoOrovio0D.step j self.
Proof.
  destruct self as [dt stims x p h]. cbn [BuenoOrovio0D.stimulations].
  intros ->. reflexivity.
Qed.

Lemma run_body_frame (i : Z) (self : BuenoOrovio0D.t F) :
  BuenoOrovio0D.stimulations (fst (Integrator.run_body i self))
  = BuenoOrovio0D.stimulations self.
Proof.
  rewrite run_body_unfold.
  pose proof (step_frame i self) as (_ & Hst & _ & _).
  destruct (BuenoOrovio0D.step i self) as [self' [[] | e]]; exact Hst.
Qed.

Lemma for_each_unstimulated (items items' : list Z)
    (self : BuenoOrovio0D.t F) :
  BuenoOrovio0D.stimulations self = [] ->
  length items = length items' ->
  BuenoOrovio0D.for_each items Integrator.run_body self
  = BuenoOrovio0D.for_each items' Integrator.run_body self.
Proof.
  revert items' self.
  induction items as [| i rest IH]; intros [| j rest'] self Hst Hlen;
    try discriminate; [reflexivity |].
  rewrite !for_each_cons.
  assert (Hb : Integrator.run_body i self = Integrator.run_body j self).
  { rewrite !run_body_unfold, (step_index_irrelevant i j) by assumption.
    reflexivity. }
  pose proof (run_body_frame j self) as Hfr.
  rewrite Hb. destruct (Integrator.run_body j self) as [self' [[] | e]];
    [| reflexivity].
  apply IH; [| now injection Hlen].
  cbn [fst] in Hfr. now rewrite Hfr.
Qed.

Lemma for_each_app (l1 l2 : list Z)
    (body : Z -> BuenoOrovio0D.method F unit) (self : BuenoOrovio0D.t F) :
  BuenoOrovio0D.for_each (l1 ++ l2) body self
  = match BuenoOrovio0D.for_each l1 body self with
    | (self', Returns _) => BuenoOrovio0D.for_each l2 body self'
    | (self', Raises e) => (self', Raises e)
    end.
Proof.
  revert self. induction l1 as [| i rest IH]; intros self; [reflexivity |].
  cbn [app]. rewrite !for_each_cons.
  destruct (body i self) as [self' [[] | e]]; [apply IH | reflexivity].
Qed.

(** X16: Two runs in a row are one longer run when nothing is stimulated.
    [run] numbers its steps from 0 in every call, so a second call
    replays the protocol from [t = 0]; with an empty protocol the step
    index is not read, and a call that completed [n1] steps followed by a
    call of [n2] steps leaves the very object (state and history) that a
    single call of [n1 + n2] steps leaves. *)
Theorem unstimulated_runs_compose (t1 t2 t3 : F) (n1 n2 : Z)
    (self : BuenoOrovio0D.t F) :
  BuenoOrovio0D.stimulations self = [] ->
  Integrator.n_steps t1 (BuenoOrovio0D.dt self) = Returns n1 ->
  Integrator.n_steps t2 (BuenoOrovio0D.dt self) = Returns n2 ->
  Integrator.n_steps t3 (BuenoOrovio0D.dt self) = Returns (n1 + n2)%Z ->
  (0 <= n1)%Z -> (0 <= n2)%Z ->
  snd (BuenoOrovio0D.run t1 self) = Returns tt ->
  BuenoOrovio0D.run t2 (fst (BuenoOrovio0D.run t1 self))
  = BuenoOrovio0D.run t3 self.
Proof.
  intros Hst H1 H2 H3 Hn1 Hn2 Hret.
  rewrite (run_unfold t3), H3.
  rewrite (for_each_unstimulated (range (n1 + n2)) (range n1 ++ range n2))
    by (try assumption; rewrite length_app, !range_length; lia).
  rewrite for_each_app.
  rewrite (run_unfold t1), H1 in Hret |- *.
  pose proof (for_each_spec (range n1) self) as HS. cbn zeta in HS.
  destruct HS as (_ & Hdt & _ & _ & _ & _).
  destruct (BuenoOrovio0D.for_each (range n1) Integrator.run_body self)
    as [self1 [[] | e]]; [| discriminate].
  cbn [fst] in *. rewrite run_unfold, Hdt, H2. reflexivity.
Qed.
End Composition.

(** ** The step count *)

Section StepCount.
Local Open Scope Z_scope.

Lemma digits2_pos_bound (m : positive) :
  Zpos m < 2 ^ Zpos (digits2_pos m).
Proof.
  induction m as [m IH | m IH |]; cbn [digits2_pos];
    [| | reflexivity];
    rewrite Pos2Z.inj_succ, Z.pow_succ_r by lia; lia.
Qed.

(** The mantissa of a binary64 is below [2^53]. *)
Lemma mantissa_bound (s : bool) (m : positive) (e : Z) :
  valid_binary (S754_finite s m e) = true -> Zpos m < 2 ^ 53.
Proof.
  cbn [valid_binary]. unfold bounded, canonical_mantissa, fexp.
  intros Hv. apply andb_prop in Hv as (Hc & _).
  apply Z.eqb_eq in Hc.
  pose proof (digits2_pos_bound m) as Hd.
  assert (Hk : Zpos (digits2_pos m) <= 53).
  { unfold SpecFloat.emin, prec, emax in Hc. lia. }
  apply (Z.lt_le_trans _ _ _ Hd).
  apply Z.pow_le_mono_r; lia.
Qed.

Lemma round_dyadic_nonneg (m : positive) (e : Z) :
  0 <= Binary64.round_dyadic m e.
Proof.
  unfold Binary64.round_dyadic.
  destruct e as [| k | k]; [lia | apply Z.mul_nonneg_nonneg; lia |].
  cbv zeta. rewrite Z.pow_pos_fold.
  assert (Hd : 0 < 2 ^ Zpos k) by (apply Z.pow_pos_nonneg; lia).
  assert (Hq : 0 <= Zpos m / 2 ^ Zpos k) by (apply Z.div_pos; lia).
  destruct (2 * (Zpos m mod 2 ^ Zpos k) ?= 2 ^ Zpos k);
    [destruct (Z.even _) | |]; lia.
Qed.

(** A positive [m * 2^e] that is at most one half rounds to [0]. *)
Lemma round_dyadic_small (m : positive) (e : Z) :
  e <= -53 -> 2 * Zpos m <= 2 ^ (- e) -> Binary64.round_dyadic m e = 0.
Proof.
  intros He Hm. unfold Binary64.round_dyadic.
  destruct e as [| k | k]; [lia | lia |].
  cbv zeta. rewrite Z.pow_pos_fold.
  change (- Zneg k) with (Zpos k) in Hm.
  assert (Hd : 0 < 2 ^ Zpos k) by (apply Z.pow_pos_nonneg; lia).
  rewrite (Z.div_small (Zpos m)), (Z.mod_small (Zpos m)) by lia.
  destruct (Z.compare_spec (2 * Zpos m) (2 ^ Zpos k)) as [_ | _ | Hgt];
    [reflexivity | reflexivity | lia].
Qed.

(** On binary64, a finite quotient that is at most [0.5] rounds to an
    integer that is at most [0]. *)
Lemma round_at_most_half (q : float) :
  Binary64.finite q = true ->
  PrimFloat.leb q 0.5 = true ->
  exists n, Binary64.round q = Returns n /\ n <= 0.
Proof.
  unfold Binary64.finite, Binary64.round.
  rewrite leb_spec. pose proof (Prim2SF_valid q) as Hv.
  replace (Prim2SF 0.5) with (S754_finite false 4503599627370496 (-53))
    by reflexivity.
  destruct (Prim2SF q) as [s | s | | s m e]; try discriminate.
  - intros _ _. exists 0. split; [reflexivity | lia].
  - intros _ Hle. pose proof (round_dyadic_nonneg m e) as Hpos.
    pose proof (mantissa_bound s m e Hv) as Hm.
    destruct s.
    + eexists. split; [reflexivity | lia].
    + eexists. split; [reflexivity |].
      unfold SFleb in Hle. cbn [SFcompare] in Hle.
      destruct (e ?= -53) eqn:Ee; [| | discriminate Hle].
      * apply Z.compare_eq in Ee. subst e.
        rewrite round_dyadic_small; [lia | lia |].
        change (- -53) with 53.
        change (2 ^ 53) with (2 * 4503599627370496).
        destruct (PosDef.Pos.compare_cont Eq m 4503599627370496) eqn:Em;
          [| | discriminate Hle].
        -- apply (Pos.compare_eq m 4503599627370496) in Em. subst m. lia.
        -- apply -> (Pos.compare_lt_iff m 4503599627370496) in Em.
           apply Pos2Z.pos_lt_pos in Em. clear - Em. lia.
      * change (e < -53) in Ee.
        rewrite round_dyadic_small; [lia | lia |].
        assert (Hp : 2 ^ 54 <= 2 ^ (- e))
          by (apply Z.pow_le_mono_r; lia).
        change (2 ^ 54) with (2 * 2 ^ 53) in Hp. lia.
Qed.
End StepCount.

Section ShortRuns.
Context `{MathLib float}.

(** X18: On binary64, a call of [run] for at most half a time step does
    nothing.  For a nonzero [dt] whose quotient [t_max/dt], as the
    division rounds it, is finite and at most [0.5] (so for every finite
    [t_max <= 0] over a finite positive [dt], but also for a small positive
    [t_max]), [int(round(t_max/dt))] is at most [0], and [run] returns at
    once and leaves the object as it was: no step, nothing recorded.  A
    quotient that overflows is excluded: there [round] raises. *)
Theorem run_below_half_a_step_is_noop (t_max : float)
    (self : BuenoOrovio0D.t float) :
  is_zero (BuenoOrovio0D.dt self) = false ->
  Binary64.finite (PrimFloat.div t_max (BuenoOrovio0D.dt self)) = true ->
  PrimFloat.leb (PrimFloat.div t_max (BuenoOrovio0D.dt self)) 0.5 = true ->
  (exists n : Z,
     Integrator.n_steps t_max (BuenoOrovio0D.dt self) = Returns n
     /\ (n <= 0)%Z)
  /\ BuenoOrovio0D.run t_max self = (self, Returns tt).
Proof.
  intros Hdt Hfin Hle.
  destruct (round_at_most_half _ Hfin Hle) as (n & Hn & Hn0).
  assert (Hsteps : Integrator.n_steps t_max (BuenoOrovio0D.dt self)
                   = Returns n).
  { unfold Integrator.n_steps, truediv. rewrite Hdt.
    cbn [bind outcome_monad ret]. exact Hn. }
  split; [exists n; split; [exact Hsteps | exact Hn0] |].
  rewrite run_unfold, Hsteps.
  unfold range. replace (Z.to_nat n) with 0%nat by lia. reflexivity.
Qed.
End ShortRuns.

(** ** IEEE 754 binary64: NaN and the infinities *)

Section NonFinite.
Context `{MathLib float}.

Lemma Prim2SF_nan : Prim2SF nan = S754_nan.
Proof. reflexivity. Qed.

Lemma Prim2SF_infinity : Prim2SF infinity = S754_infinity false.
Proof. reflexivity. Qed.

Lemma Prim2SF_neg_infinity : Prim2SF neg_infinity = S754_infinity true.
Proof. reflexivity. Qed.

Lemma Prim2SF_zero : Prim2SF 0%float = S754_zero false.
Proof. reflexivity. Qed.

Lemma n_steps_non_finite (t_max dt : float) :
  match Prim2SF t_max with
  | S754_nan =>
      Integrator.n_steps t_max dt = Raises (non_finite_error true dt)
  | S754_infinity _ =>
      Integrator.n_steps t_max dt = Raises (non_finite_error false dt)
  | _ => True
  end.
Proof.
  unfold Integrator.n_steps, truediv, non_finite_error.
  cbn [is_zero quot py_round Binary64.float_PyFloat bind outcome_monad].
  rewrite eqb_spec, Prim2SF_zero. unfold Binary64.round.
  destruct (Prim2SF t_max) as [s | s | | s m e] eqn:Et; try exact I.
  - destruct (Prim2SF dt) as [s' | s' | | s' m' e'] eqn:Ed;
      cbn [SFeqb SFcompare]; try reflexivity;
      try (destruct s'; cbn [bind outcome_monad]);
      rewrite div_spec, Et, Ed; reflexivity.
  - destruct (Prim2SF dt) as [s' | s' | | s' m' e'] eqn:Ed;
      cbn [SFeqb SFcompare]; try reflexivity;
      try (destruct s'; cbn [bind outcome_monad]);
      rewrite div_spec, Et, Ed; reflexivity.
Qed.

(** X19: On binary64 a [t_max] that is not finite never starts a simulation.
    For every model object, [run(inf)], [run(-inf)] and [run(nan)] raise
    before the first step and leave the object untouched:
    [ZeroDivisionError] when [dt] is a zero; otherwise [round] refuses the
    quotient, with [OverflowError] for an infinite [t_max] over a finite
    [dt] and [ValueError] when the quotient is a NaN. *)
Theorem run_rejects_non_finite_t_max (self : BuenoOrovio0D.t float) :
  let dt := BuenoOrovio0D.dt self in
  BuenoOrovio0D.run infinity self
  = (self, Raises (non_finite_error false dt))
  /\ BuenoOrovio0D.run neg_infinity self
     = (self, Raises (non_finite_error false dt))
  /\ BuenoOrovio0D.run nan self
     = (self, Raises (non_finite_error true dt)).
Proof.
  cbv zeta. rewrite !run_unfold.
  pose proof (n_steps_non_finite infinity (BuenoOrovio0D.dt self)) as H1.
  pose proof (n_steps_non_finite neg_infinity (BuenoOrovio0D.dt self))
    as H2.
  pose proof (n_steps_non_finite nan (BuenoOrovio0D.dt self)) as H3.
  rewrite Prim2SF_infinity in H1. rewrite Prim2SF_neg_infinity in H2.
  rewrite Prim2SF_nan in H3.
  rewrite H1, H2, H3. repeat split; reflexivity.
Qed.
End NonFinite.

(** ** IEEE 754 binary64: a NaN in the window test *)

Section NaNStimulus.

Lemma SFcompare_nan_r (x : spec_float) : SFcompare x S754_nan = None.
Proof. destruct x; reflexivity. Qed.

Lemma ltb_nan_r (x y : float) :
  Prim2SF y = S754_nan -> PrimFloat.ltb x y = false.
Proof.
  intros Hy. rewrite ltb_spec, Hy. unfold SFltb.
  now rewrite SFcompare_nan_r.
Qed.

Lemma leb_nan_l (x y : float) :
  Prim2SF x = S754_nan -> PrimFloat.leb x y = false.
Proof. intros Hx. rewrite leb_spec, Hx. reflexivity. Qed.

Lemma ltb_nan_l (x y : float) :
  Prim2SF x = S754_nan -> PrimFloat.ltb x y = false.
Proof. intros Hx. rewrite ltb_spec, Hx. reflexivity. Qed.

Lemma add_nan (x y : float) :
  Prim2SF x = S754_nan \/ Prim2SF y = S754_nan ->
  Prim2SF (PrimFloat.add x y) = S754_nan.
Proof.
  intros [Hx | Hy]; rewrite add_spec.
  - rewrite Hx. reflexivity.
  - rewrite Hy. unfold SF64add, SFadd. destruct (Prim2SF x); reflexivity.
Qed.

(** X20: On binary64 a NaN never opens a stimulation window: when the time,
    the entry's [t_start] or its [duration] is a NaN, both comparisons of
    the window test are false and [stim] returns [0.0], not the amplitude
    and not a NaN. *)
Theorem stim_nan_is_zero (self : Stimulation.t float) (t : float) :
  Prim2SF t = S754_nan
  \/ Prim2SF (Stimulation.t_start self) = S754_nan
  \/ Prim2SF (Stimulation.duration self) = S754_nan ->
  Stimulation.stim self t = 0%float.
Proof.
  intros Hn. unfold Stimulation.stim.
  cbn [le lt add lit Binary64.float_PyFloat].
  replace (Binary64.of_decimal 0.0) with 0%float by reflexivity.
  destruct Hn as [Ht | [Hs | Hd]].
  - rewrite (ltb_nan_l t) by assumption. now rewrite andb_false_r.
  - rewrite (leb_nan_l (Stimulation.t_start self)) by assumption.
    reflexivity.
  - rewrite (ltb_nan_r t) by (apply add_nan; now right).
    now rewrite andb_false_r.
Qed.
End NaNStimulus.

(** ** Which zero divisors raise *)

Section ZeroDivisors.
Context {F : Type} `{PyFloat F}.
Local Open Scope py_scope.

(** X21: A zero time constant raises only where the code divides by it.
    [calc_v] and [calc_w] divide in the branch they take and nowhere
    else, and [calc_w_inf] divides below [theta_o] only, so a zero
    constant of the other branch is harmless; [calc_Jso] evaluates both
    of its quotients before it adds them, so a zero [tau_o] or [tau_so]
    raises [ZeroDivisionError] for every [u], also where the gate [H]
    multiplies that term by zero. *)
Theorem zero_divisor_raises_where_divided
    (y u theta y_inf tau_m tau_p u_o tau_o tau_so tau_w_inf w_inf_ : F) :
  ((u - theta <? of_int 0) = true -> is_zero tau_m = false ->
   ops.calc_v y u theta y_inf tau_m tau_p = Returns (quot (y_inf - y) tau_m)
   /\ ops.calc_w y u theta y_inf tau_m tau_p
      = Returns (quot (y_inf - y) tau_m))
  /\ ((u - theta <? of_int 0) = false -> is_zero tau_p = false ->
      ops.calc_v y u theta y_inf tau_m tau_p = Returns (quot (- y) tau_p)
      /\ ops.calc_w y u theta y_inf tau_m tau_p = Returns (quot (- y) tau_p))
  /\ ((u - theta <? of_int 0) = true -> is_zero tau_m = true ->
      ops.calc_v y u theta y_inf tau_m tau_p = Raises ZeroDivisionError
      /\ ops.calc_w y u theta y_inf tau_m tau_p = Raises ZeroDivisionError)
  /\ ((u - theta <? of_int 0) = false ->
      ops.calc_w_inf u theta tau_w_inf w_inf_ = Returns w_inf_)
  /\ ((u - theta <? of_int 0) = true -> is_zero tau_w_inf = true ->
      ops.calc_w_inf u theta tau_w_inf w_inf_ = Raises ZeroDivisionError)
  /\ (is_zero tau_o = true \/ is_zero tau_so = true ->
      ops.calc_Jso u u_o theta tau_o tau_so = Raises ZeroDivisionError).
Proof.
  unfold ops.calc_v, ops.calc_w, ops.calc_w_inf, ops.calc_Jso, truediv.
  cbv zeta.
  split; [| split; [| split; [| split; [| split]]]].
  - intros -> ->. split; reflexivity.
  - intros -> ->. split; reflexivity.
  - intros -> ->. split; reflexivity.
  - intros ->. reflexivity.
  - intros -> ->. reflexivity.
  - intros [-> | Hso]; [reflexivity |].
    destruct (is_zero tau_o); [reflexivity |].
    cbn [bind outcome_monad]. rewrite Hso. reflexivity.
Qed.
End ZeroDivisors.

(** ** Steps outside the stimulation windows *)

Section OutsideWindows.
Context {F : Type} `{PyFloat F} `{MathLib F}.
Local Open Scope py_scope.

Lemma stim_by_window_test (e : Stimulation.t F) (t : F) :
  Stimulation.stim e t
  = if window_open e t then Stimulation.amplitude e else lit 0.0.
Proof. reflexivity. Qed.

(** Entries whose windows are closed contribute [0.0] each, and adding
    [0.0] to the [0] that [sum] starts from gives that [0] again. *)
Lemma stimulus_closed (stims : list (Stimulation.t F)) (t : F) :
  of_int 0 + lit 0.0 = of_int 0 ->
  forallb (fun e => negb (window_open e t)) stims = true ->
  Integrator.stimulus stims t = of_int 0.
Proof.
  intros Hz. unfold Integrator.stimulus, sum.
  induction stims as [| e l IH]; cbn [forallb map fold_left];
    [reflexivity |].
  intros Hl. apply andb_prop in Hl as (He & Hl).
  rewrite stim_by_window_test. apply negb_true_iff in He. rewrite He, Hz.
  apply IH, Hl.
Qed.

Lemma du_dt_idle (self : BuenoOrovio0D.t F) (i : Z) (x : Var.dict F) :
  of_int 0 + lit 0.0 = of_int 0 ->
  idle_at self i = true ->
  Integrator.du_dt (BuenoOrovio0D.parameters self)
    (BuenoOrovio0D.stimulations self) (BuenoOrovio0D.dt self) i x
  = Integrator.du_dt (BuenoOrovio0D.parameters self) []
      (BuenoOrovio0D.dt self) i x.
Proof.
  intros Hz Hidle. unfold idle_at in Hidle. unfold Integrator.du_dt.
  destruct (mul_int (BuenoOrovio0D.dt self) i) as [t | e] eqn:Et;
    [| discriminate Hidle].
  rewrite (stimulus_values_at _ _ _ _ Et).
  destruct (Integrator.reaction _ x) as [r | e]; [| reflexivity].
  cbn [bind outcome_monad ret Integrator.stimulus_values map_outcome].
  change (sum (map (fun stim => Stimulation.stim stim t)
                 (BuenoOrovio0D.stimulations self)))
    with (Integrator.stimulus (BuenoOrovio0D.stimulations self) t).
  rewrite (stimulus_closed _ _ Hz Hidle). reflexivity.
Qed.

Lemma step_idle (i : Z) (self : BuenoOrovio0D.t F) :
  of_int 0 + lit 0.0 = of_int 0 ->
  idle_at self i = true ->
  BuenoOrovio0D.step i (with_stimulations [] self)
  = (with_stimulations [] (fst (BuenoOrovio0D.step i self)),
     snd (BuenoOrovio0D.step i self)).
Proof.
  intros Hz Hidle.
  rewrite !step_stages. unfold step_by_stage.
  cbn [with_stimulations BuenoOrovio0D.parameters BuenoOrovio0D.dt
       BuenoOrovio0D.stimulations BuenoOrovio0D.variables].
  destruct (Integrator.dv_dt _ _) as [dv | e]; [| reflexivity].
  destruct (Integrator.dw_dt _ _) as [dw | e]; [| reflexivity].
  destruct (Integrator.ds_dt _ _) as [ds | e]; [| reflexivity].
  cbv zeta. rewrite (du_dt_idle self i _ Hz Hidle).
  destruct (Integrator.du_dt _ _ _ _ _) as [du | e]; reflexivity.
Qed.

(** X22: A step at which the window test of [stim] fails for every entry, at
    the product [dt*i] that [step] itself computes and with the
    comparisons and the sum [t_start + duration] of the arithmetic in use
    (so before the first window, between two windows, after the last one),
    is the step of the unstimulated model: every entry contributes [0.0],
    their sum is the [0] that [sum] starts from, and [step] leaves the
    state, and raises the exception, that it would with an empty
    stimulation list.  The arithmetic enters through one fact only, that
    [0 + 0.0] is [0], which holds of exact reals and of binary64. *)
Theorem step_outside_every_window (i : Z) (self : BuenoOrovio0D.t F) :
  of_int 0 + lit 0.0 = of_int 0 ->
  idle_at self i = true ->
  (exists t : F,
     mul_int (BuenoOrovio0D.dt self) i = Returns t
     /\ Integrator.stimulus_values (BuenoOrovio0D.stimulations self)
          (BuenoOrovio0D.dt self) i
        = Returns (map (fun _ => lit 0.0) (BuenoOrovio0D.stimulations self))
     /\ Integrator.stimulus (BuenoOrovio0D.stimulations self) t = of_int 0)
  /\ Integrator.step_variables i self
     = Integrator.step_variables i (with_stimulations [] self)
  /\ BuenoOrovio0D.step i (with_stimulations [] self)
     = (with_stimulations [] (fst (BuenoOrovio0D.step i self)),
        snd (BuenoOrovio0D.step i self)).
Proof.
  intros Hz Hidle.
  pose proof (step_idle i self Hz Hidle) as Hstep.
  split.
  - unfold idle_at in Hidle.
    destruct (mul_int (BuenoOrovio0D.dt self) i) as [t | e] eqn:Et;
      [| discriminate Hidle].
    exists t. split; [reflexivity |].
    split; [| exact (stimulus_closed _ _ Hz Hidle)].
    rewrite (stimulus_values_at _ _ _ _ Et). f_equal.
    clear Hstep Et.
    induction (BuenoOrovio0D.stimulations self) as [| e l IH];
      [reflexivity |].
    cbn [forallb] in Hidle. apply andb_prop in Hidle as (He & Hl).
    cbn [map]. rewrite stim_by_window_test. apply negb_true_iff in He.
    rewrite He, (IH Hl). reflexivity.
  - split; [| exact Hstep].
    unfold Integrator.step_variables. rewrite Hstep.
    destruct (BuenoOrovio0D.step i self) as [self' [[] | e]]; reflexivity.
Qed.
End OutsideWindows.

(** ** Pulses that fall between the sample times *)

Section MissedPulses.
Context {F : Type} `{PyFloat F} `{MathLib F}.
Local Open Scope py_scope.

Lemma for_each_idle (items : list Z) (self : BuenoOrovio0D.t F) :
  of_int 0 + lit 0.0 = of_int 0 ->
  Forall (fun i => idle_at self i = true) items ->
  BuenoOrovio0D.for_each items Integrator.run_body
    (with_stimulations [] self)
  = (with_stimulations []
       (fst (BuenoOrovio0D.for_each items Integrator.run_body self)),
     snd (BuenoOrovio0D.for_each items Integrator.run_body self)).
Proof.
  intros Hz. revert self.
  induction items as [| i rest IH]; intros self HF; [reflexivity |].
  inversion HF as [| ? ? Hi Hrest]; subst.
  rewrite !for_each_cons, !run_body_unfold, (step_idle i self Hz Hi).
  pose proof (step_frame i self) as (Hdt & Hst & _ & _).
  destruct (BuenoOrovio0D.step i self) as [self1 [[] | e]];
    cbn [fst snd] in *; [| reflexivity].
  rewrite !append_history_spec.
  change (Integrator.with_history
            (Integrator.extend
               (BuenoOrovio0D.history (with_stimulations [] self1))
               (Integrator.columns
                  [BuenoOrovio0D.variables (with_stimulations [] self1)]))
            (with_stimulations [] self1))
    with (with_stimulations []
            (Integrator.with_history
               (Integrator.extend (BuenoOrovio0D.history self1)
                  (Integrator.columns [BuenoOrovio0D.variables self1]))
               self1)).
  apply IH.
  unfold idle_at in *.
  cbn [Integrator.with_history BuenoOrovio0D.dt BuenoOrovio0D.stimulations].
  rewrite Hdt, Hst. exact Hrest.
Qed.

(** X23: A pulse that falls between the sample times is never seen.  [step]
    samples the protocol at the products [dt*i] only, so when the window
    test of [stim], as the arithmetic in use evaluates it, fails for every
    entry at each of [dt*0, ..., dt*(n-1)], with [n] the step count the
    call computes, the whole call behaves as with an empty protocol: same
    outcome, same final state, same history.  The arithmetic enters
    through one fact only, that [0 + 0.0] is [0], which holds of exact
    reals and of binary64. *)
Theorem run_misses_pulses_between_samples (t_max : F) (n : Z)
    (self : BuenoOrovio0D.t F) :
  of_int 0 + lit 0.0 = of_int 0 ->
  Integrator.n_steps t_max (BuenoOrovio0D.dt self) = Returns n ->
  (forall i, (0 <= i < n)%Z -> idle_at self i = true) ->
  BuenoOrovio0D.run t_max (with_stimulations [] self)
  = (with_stimulations [] (fst (BuenoOrovio0D.run t_max self)),
     snd (BuenoOrovio0D.run t_max self)).
Proof.
  intros Hz Hn Hidle. rewrite !run_unfold.
  cbn [with_stimulations BuenoOrovio0D.dt]. rewrite Hn.
  apply (for_each_idle _ _ Hz). apply Forall_forall. intros i Hi.
  apply Hidle.
  unfold range in Hi. apply in_map_iff in Hi as (k & <- & Hk).
  apply in_seq in Hk. lia.
Qed.
End MissedPulses.

(** ** The hypotheses of the properties above, at concrete inputs *)

Section Instances.
Local Open Scope R_scope.

Lemma zero_tau_fi_model_rates :
  is_zero (Par.tau_fi (BuenoOrovio0D.parameters zero_tau_fi_model)) = true
  /\ Integrator.dv_dt (BuenoOrovio0D.parameters zero_tau_fi_model)
       (BuenoOrovio0D.variables zero_tau_fi_model) = Returns 0
  /\ Integrator.dw_dt (BuenoOrovio0D.parameters zero_tau_fi_model)
       (BuenoOrovio0D.variables zero_tau_fi_model) = Returns 0
  /\ Integrator.ds_dt (BuenoOrovio0D.parameters zero_tau_fi_model)
       (BuenoOrovio0D.variables zero_tau_fi_model) = Returns resting_ds_dt.
Proof.
  destruct (resting_derivatives 0 0) as (Hv & Hw & _ & Hs).
  split; [| split; [| split]].
  - cbn. destruct (Req_dec_T 0 0); [reflexivity | contradiction].
  - exact Hv.
  - exact Hw.
  - exact Hs.
Qed.

Lemma zero_tau_fi_model_step :
  exists self',
    BuenoOrovio0D.step 0 zero_tau_fi_model
    = (self', Raises ZeroDivisionError).
Proof.
  destruct zero_tau_fi_model_rates as (Hz & Hv & Hw & Hs).
  rewrite step_stages. unfold step_by_stage.
  rewrite Hv, Hw, Hs. cbv zeta.
  rewrite du_dt_zero_tau_fi by exact Hz.
  eexists. reflexivity.
Qed.

Lemma step_failure_keeps_gate_updates_witness :
  is_zero (Par.tau_fi (BuenoOrovio0D.parameters zero_tau_fi_model)) = true
  /\ snd (BuenoOrovio0D.step 0 zero_tau_fi_model) = Raises ZeroDivisionError
  /\ Var.s (BuenoOrovio0D.variables
              (fst (BuenoOrovio0D.step 0 zero_tau_fi_model)))
     = Var.s (BuenoOrovio0D.variables zero_tau_fi_model)
       + BuenoOrovio0D.dt zero_tau_fi_model * resting_ds_dt.
Proof.
  destruct zero_tau_fi_model_rates as (Hz & Hv & Hw & Hs).
  split; [exact Hz |].
  rewrite (step_failure_keeps_gate_updates 0 zero_tau_fi_model 0 0
             resting_ds_dt Hz Hv Hw Hs).
  split; reflexivity.
Defined.

Lemma n_steps_integer (n : Z) : Integrator.n_steps (IZR n) 1 = Returns n.
Proof.
  rewrite n_steps_R by lra. f_equal. apply round_half_even_near. lra.
Qed.

Lemma run_stops_at_failing_step_witness :
  Integrator.n_steps 1 (BuenoOrovio0D.dt zero_tau_fi_model) = Returns 1%Z
  /\ snd (BuenoOrovio0D.run 1 zero_tau_fi_model) = Raises ZeroDivisionError
  /\ BuenoOrovio0D.history (fst (BuenoOrovio0D.run 1 zero_tau_fi_model))
     = BuenoOrovio0D.history zero_tau_fi_model.
Proof.
  destruct zero_tau_fi_model_step as (self' & Hstep).
  pose proof (n_steps_integer 1) as Hn.
  split; [exact Hn |].
  destruct (run_stops_at_failing_step 1 zero_tau_fi_model self' 1
              ZeroDivisionError Hn eq_refl Hstep) as [Hr Hh].
  rewrite Hr. split; [reflexivity | exact Hh].
Defined.

Lemma run_zero_dt_witness :
  is_zero (BuenoOrovio0D.dt (BuenoOrovio0D.init 0 [pulse])) = true
  /\ BuenoOrovio0D.run 1 (BuenoOrovio0D.init 0 [pulse])
     = (BuenoOrovio0D.init 0 [pulse], Raises ZeroDivisionError).
Proof.
  assert (Hz : is_zero (BuenoOrovio0D.dt (BuenoOrovio0D.init 0 [pulse]))
               = true).
  { cbn. destruct (Req_dec_T 0 0); [reflexivity | contradiction]. }
  split; [exact Hz |].
  exact (run_zero_dt 1 (BuenoOrovio0D.init 0 [pulse]) Hz).
Defined.

Lemma currents_are_piecewise_witness :
  ops.calc_Jfi 0 1 (3 / 10) (155 / 100) (11 / 100) = Returns 0
  /\ ops.calc_Jso 1 0 (13 / 100) 6 1 = Returns (1 / 1).
Proof.
  destruct (currents_are_piecewise 0 1 1 0 0 (155 / 100) (3 / 10)
              (13 / 100) (11 / 100) 6 1 1)
    as (Hfi & _); try lra.
  destruct (currents_are_piecewise 1 1 1 0 0 (155 / 100) (3 / 10)
              (13 / 100) (11 / 100) 6 1 1)
    as (_ & _ & _ & Hso); try lra.
  split; [apply Hfi; lra | apply Hso; lra].
Defined.

Lemma currents_have_fixed_sign_witness :
  exists J_fi J_so J_si,
    ops.calc_Jfi (1 / 2) 1 (3 / 10) (155 / 100) (11 / 100) = Returns J_fi
    /\ ops.calc_Jso (1 / 2) 0 (13 / 100) 6 1 = Returns J_so
    /\ ops.calc_Jsi (1 / 2) 1 (1 / 2) (13 / 100) 2 = Returns J_si
    /\ J_fi <= 0 /\ 0 <= J_so /\ J_si <= 0.
Proof.
  apply (currents_have_fixed_sign (1 / 2) 1 1 (1 / 2) 0 (155 / 100)
           (3 / 10) (13 / 100) (11 / 100) 6 1 2); lra.
Defined.

Lemma subthreshold_step_is_forward_euler_witness :
  let self := BuenoOrovio0D.init (lit 0.01) [pulse] in
  Var.u (BuenoOrovio0D.variables self)
    < Par.theta_w (BuenoOrovio0D.parameters self)
  /\ Integrator.step_variables 10 self
     = Integrator.forward_euler_step ops.get_parameters (lit 0.01) [pulse]
         10 ops.get_variables.
Proof.
  cbv zeta. split; [cbn; lit_R; lra |].
  apply (subthreshold_step_is_forward_euler 10
           (BuenoOrovio0D.init (lit 0.01) [pulse])); cbn; lit_R; lra.
Defined.

Lemma unstimulated_runs_compose_witness :
  let self := BuenoOrovio0D.init 1 [] in
  snd (BuenoOrovio0D.run 1 self) = Returns tt
  /\ BuenoOrovio0D.run 2 (fst (BuenoOrovio0D.run 1 self))
     = BuenoOrovio0D.run 3 self.
Proof.
  cbv zeta.
  assert (Hr : snd (BuenoOrovio0D.run 1 (BuenoOrovio0D.init 1 []))
               = Returns tt).
  { apply (run_defaults 1 1 []). lra. }
  split; [exact Hr |].
  apply (unstimulated_runs_compose 1 2 3 1 2 (BuenoOrovio0D.init 1 []));
    try reflexivity; try lia; try exact Hr.
  - exact (n_steps_integer 1).
  - exact (n_steps_integer 2).
  - exact (n_steps_integer 3).
Defined.

Lemma run_below_half_a_step_is_noop_witness :
  let self := BuenoOrovio0D.init (F := float) (lit 0.01) [pulse] in
  is_zero (BuenoOrovio0D.dt self) = false
  /\ Binary64.finite (PrimFloat.div (lit 0.004) (BuenoOrovio0D.dt self))
     = true
  /\ PrimFloat.leb (PrimFloat.div (lit 0.004) (BuenoOrovio0D.dt self))
       0.5%float = true
  /\ (forall tanh : MathLib float,
        Integrator.n_steps (F := float) (lit 0.004) (lit 0.01)
        = Returns 0%Z
        /\ BuenoOrovio0D.run (lit 0.004) self = (self, Returns tt)).
Proof.
  cbv zeta.
  assert (Hdt : is_zero (BuenoOrovio0D.dt
                           (BuenoOrovio0D.init (F := float) (lit 0.01)
                              [pulse])) = false) by reflexivity.
  assert (Hfin : Binary64.finite
                   (PrimFloat.div (lit 0.004)
                      (BuenoOrovio0D.dt
                         (BuenoOrovio0D.init (F := float) (lit 0.01)
                            [pulse]))) = true) by reflexivity.
  assert (Hle : PrimFloat.leb
                  (PrimFloat.div (lit 0.004)
                     (BuenoOrovio0D.dt
                        (BuenoOrovio0D.init (F := float) (lit 0.01)
                           [pulse]))) 0.5%float = true) by reflexivity.
  split; [exact Hdt |]. split; [exact Hfin |]. split; [exact Hle |].
  intros tanh.
  split; [reflexivity |].
  exact (proj2 (run_below_half_a_step_is_noop (lit 0.004)
                  (BuenoOrovio0D.init (lit 0.01) [pulse]) Hdt Hfin Hle)).
Defined.

Lemma stim_nan_is_zero_witness :
  Prim2SF nan = S754_nan
  /\ Stimulation.stim (F := float) pulse nan = 0%float.
Proof.
  split; [reflexivity |].
  apply (stim_nan_is_zero pulse nan). left. reflexivity.
Defined.

Lemma zero_divisor_raises_where_divided_witness :
  ops.calc_Jso (F := R) 1 0 (13 / 100) 0 1 = Raises ZeroDivisionError
  /\ ops.calc_w_inf (F := R) 1 (6 / 1000) 0 (94 / 100)
     = Returns (94 / 100).
Proof.
  destruct (zero_divisor_raises_where_divided (F := R)
              1 1 (6 / 1000) 1 1 1 0 0 1 0 (94 / 100))
    as (_ & _ & _ & Hw & _ & _).
  destruct (zero_divisor_raises_where_divided (F := R)
              1 1 (13 / 100) 1 1 1 0 0 1 0 (94 / 100))
    as (_ & _ & _ & _ & _ & Hso).
  split.
  - apply Hso. left. cbn.
    destruct (Req_dec_T 0 0); [reflexivity | contradiction].
  - apply Hw. cbn. destruct (Rlt_dec (1 - 6 / 1000) 0); [lra | reflexivity].
Defined.

(** On binary64 the model [coarse_model] is idle at the steps [0] and [1]:
    at [0.0] and at [0.5] the window [[0.1, 0.1 + 0.2)] of [pulse] is
    closed. *)
Lemma coarse_model_idle (i : Z) :
  (0 <= i < 2)%Z -> idle_at (F := float) coarse_model i = true.
Proof.
  intros Hi. assert (Hc : i = 0%Z \/ i = 1%Z) by lia.
  destruct Hc as [-> | ->]; vm_compute; reflexivity.
Qed.

Lemma zero_plus_zero_binary64 :
  add (F := float) (of_int 0) (lit 0.0) = of_int 0.
Proof. reflexivity. Qed.

Lemma step_outside_every_window_witness :
  add (F := float) (of_int 0) (lit 0.0) = of_int 0
  /\ idle_at (F := float) coarse_model 1 = true
  /\ mul_int (F := float) (lit 0.5) 1 = Returns (lit 0.5)
  /\ Integrator.stimulus (F := float) [pulse] (lit 0.5) = of_int 0
  /\ (forall tanh : MathLib float,
        Integrator.step_variables 1 coarse_model
        = Integrator.step_variables 1 (with_stimulations [] coarse_model)).
Proof.
  assert (Hi : idle_at (F := float) coarse_model 1 = true)
    by (apply coarse_model_idle; lia).
  split; [exact zero_plus_zero_binary64 |].
  split; [exact Hi |].
  split; [reflexivity |].
  split; [reflexivity |].
  intros tanh.
  exact (proj1 (proj2 (step_outside_every_window 1 coarse_model
                         zero_plus_zero_binary64 Hi))).
Defined.

Lemma run_misses_pulses_between_samples_witness :
  add (F := float) (of_int 0) (lit 0.0) = of_int 0
  /\ Integrator.n_steps (F := float) (lit 1.0)
       (BuenoOrovio0D.dt coarse_model) = Returns 2%Z
  /\ (forall tanh : MathLib float,
        BuenoOrovio0D.run (lit 1.0) (with_stimulations [] coarse_model)
        = (with_stimulations []
             (fst (BuenoOrovio0D.run (lit 1.0) coarse_model)),
           snd (BuenoOrovio0D.run (lit 1.0) coarse_model))).
Proof.
  assert (Hn : Integrator.n_steps (F := float) (lit 1.0)
                 (BuenoOrovio0D.dt coarse_model) = Returns 2%Z)
    by reflexivity.
  split; [exact zero_plus_zero_binary64 |].
  split; [exact Hn |].
  intros tanh.
  exact (run_misses_pulses_between_samples (lit 1.0) 2 coarse_model
           zero_plus_zero_binary64 Hn coarse_model_idle).
Defined.
End Instances.
